(** * Ryu controller applications: learning switch, firewall, VIP load
      balancer and telemetry

    A shallow embedding of the four Ryu applications of the repository
    ([ryu_app_learning_switch.py], [ryu_app_firewall.py],
    [ryu_app_load_balancer.py], [ryu_app_telemetry.py]) and the properties
    of their event handlers.

    Conventions of the embedding:
    - a Python [dict] is a [gmap]; a list indexed by position is a [list]
      read with [!!] and updated with [<[i:=x]>];
    - a handler is a function from the application state and the event to
      the new state and the list of messages it hands to
      [datapath.send_msg], in order; a message is in the list when
      [send_msg] returned for it. [send_msg] raises, and sends nothing,
      for a packet-out that carries data and names a buffer, and for a
      message that names an IPv4 address the address converter refuses;
      the addresses of a parsed header are text of Ryu's own parser,
      which the converter takes; in the loop of the firewall, which
      catches what it raises, whether it raises is left open;
    - an uncaught Python exception is the [Raised] outcome, carrying the
      state at the point of the raise;
    - Python floats are binary64 numbers ([PrimFloat.float]). *)

From Stdlib Require Import ZArith NArith Ascii String List Lia PrimFloat SpecFloat FloatOps.
From stdpp Require Import gmap strings list.

Open Scope N_scope.

(** ** The OpenFlow 1.3 vocabulary used by the applications *)

(** Constants of [ryu.ofproto.ofproto_v1_3], [ryu.lib.packet.ether_types]
    and [ryu.lib.packet.arp]. *)
Module ofproto_v1_3.
Definition OFPP_MAX : N := 0xffffff00.
Definition OFPP_NORMAL : N := 0xfffffffa.
Definition OFPP_FLOOD : N := 0xfffffffb.
Definition OFPP_CONTROLLER : N := 0xfffffffd.
Definition OFP_NO_BUFFER : N := 0xffffffff.
Definition OFPCML_MAX : N := 0xffe5.
Definition OFPCML_NO_BUFFER : N := 0xffff.
Definition OFP_DEFAULT_PRIORITY : N := 0x8000.
(** [hasattr(ofp, 'OFPP_NORMAL')]: the 1.3 protocol module defines it. *)
Definition hasattr_OFPP_NORMAL : bool := true.
End ofproto_v1_3.

Module ether_types.
Definition ETH_TYPE_IP : N := 0x0800.
Definition ETH_TYPE_ARP : N := 0x0806.
Definition ETH_TYPE_LLDP : N := 0x88cc.
End ether_types.

Definition ARP_REQUEST : N := 1.
Definition ARP_REPLY : N := 2.

(** Parsed protocol headers ([ryu.lib.packet]); addresses are text, as Ryu
    presents them. *)
Record ethernet := { eth_dst : string; eth_src : string; ethertype : N }.
Record ipv4 := { ipv4_src : string; ipv4_dst : string }.
Record arp := {
  opcode : N;
  src_mac : string; src_ip : string;
  dst_mac : string; dst_ip : string }.

(** [packet.Packet(msg.data)] as the handlers look at it: the first
    Ethernet header, and the results of [get_protocol(ipv4.ipv4)] and
    [get_protocol(arp.arp)] ([None] when the frame carries none). *)
Record Packet := {
  pkt_eth : ethernet;
  pkt_ipv4 : option ipv4;
  pkt_arp : option arp }.

(** The payload of a packet-out: the bytes of the packet-in, or a reply
    the controller builds and serialises. *)
Inductive PacketData :=
| RawData (bytes : list Byte.byte)
| Serialized (e : ethernet) (a : arp).

(** The argument of a match field or of a set-field action. *)
Inductive oxm_value :=
| OXMInt (n : N)
| OXMStr (s : string).

(** [parser.OFPMatch(k1=v1, ...)]: its keyword arguments, in call order. *)
Definition OFPMatch : Type := list (string * oxm_value).

Inductive OFPAction :=
| OFPActionOutput (port : N) (max_len : N)
| OFPActionSetField (field : string) (value : string).

Inductive OFPInstructionType := OFPIT_APPLY_ACTIONS | OFPIT_CLEAR_ACTIONS.

Inductive OFPInstruction :=
| OFPInstructionActions (type : OFPInstructionType) (actions : list OFPAction).

Record OFPFlowMod := {
  fm_buffer_id : N;
  fm_priority : N;
  fm_match : OFPMatch;
  fm_instructions : list OFPInstruction;
  fm_idle_timeout : N;
  fm_hard_timeout : N }.

Record OFPPacketOut := {
  po_buffer_id : N;
  po_in_port : N;
  po_actions : list OFPAction;
  po_data : PacketData }.

Inductive OFPMsg :=
| FlowMod (m : OFPFlowMod)
| PacketOut (p : OFPPacketOut).

(** [parser.OFPFlowMod(datapath, priority=, match=, instructions=)] with the
    other arguments at the defaults of Ryu's constructor. *)
Definition OFPFlowMod_new (priority : N) (mtch : OFPMatch)
    (inst : list OFPInstruction) : OFPFlowMod :=
  {| fm_buffer_id := ofproto_v1_3.OFP_NO_BUFFER;
     fm_priority := priority;
     fm_match := mtch;
     fm_instructions := inst;
     fm_idle_timeout := 0;
     fm_hard_timeout := 0 |}.

(** [parser.OFPActionOutput(port)]: [max_len] defaults to [OFPCML_MAX]. *)
Definition Output (port : N) : OFPAction :=
  OFPActionOutput port ofproto_v1_3.OFPCML_MAX.

(** Whether the address converter of the serialiser
    ([addrconv.ipv4.text_to_bin]) takes a text: the texts it takes
    whatever its version are the dotted quads, four decimal numbers up to
    255 without leading zeros; other texts count as refused. *)
Definition is_digit (c : Ascii.ascii) : bool :=
  (48 <=? Ascii.nat_of_ascii c)%nat && (Ascii.nat_of_ascii c <=? 57)%nat.

Fixpoint split_dots (s : string) : list string :=
  match s with
  | EmptyString => [EmptyString]
  | String c rest =>
      if Ascii.eqb c "."%char
      then EmptyString :: split_dots rest
      else
        match split_dots rest with
        | field :: fields => String c field :: fields
        | [] => [String c EmptyString]
        end
  end.

Fixpoint decimal_value (s : string) (acc : nat) : option nat :=
  match s with
  | EmptyString => Some acc
  | String c rest =>
      if is_digit c
      then decimal_value rest (10 * acc + (Ascii.nat_of_ascii c - 48))%nat
      else None
  end.

Definition octet_text_ok (s : string) : bool :=
  match s with
  | EmptyString => false
  | String c rest =>
      (String.length s <=? 3)%nat
      && (negb (Ascii.eqb c "0"%char) || String.eqb rest "")
      && match decimal_value s 0 with
         | Some n => (n <=? 255)%nat
         | None => false
         end
  end.

Definition ipv4_text_ok (s : string) : bool :=
  match split_dots s with
  | [a; b; c; d] =>
      octet_text_ok a && octet_text_ok b && octet_text_ok c && octet_text_ok d
  | _ => false
  end.

(** The packet-in event: [msg.datapath.id], [msg.match['in_port']],
    [msg.buffer_id], [msg.data] and the parse of [msg.data]. *)
Record EventOFPPacketIn := {
  ev_dpid : N;
  ev_in_port : N;
  ev_buffer_id : N;
  ev_data : list Byte.byte;
  ev_pkt : Packet }.

Definition is_FlowMod (m : OFPMsg) : bool :=
  match m with FlowMod _ => true | PacketOut _ => false end.

Definition is_PacketOut (m : OFPMsg) : bool :=
  match m with FlowMod _ => false | PacketOut _ => true end.

(** ** ryu_app_learning_switch.py *)

Module LearningSwitch13.
Import ofproto_v1_3.

(** [self.mac_to_port]: [{dpid: {mac: port}}]. *)
Record t := { mac_to_port : gmap N (gmap string N) }.

Definition init : t := {| mac_to_port := ∅ |}.

(** [add_flow]: the flow-mod it sends; [buffer_id=None] is the default
    of the keyword argument. *)
Definition add_flow (priority : N) (mtch : OFPMatch)
    (actions : list OFPAction) (buffer_id : option N) : OFPMsg :=
  let inst := [OFPInstructionActions OFPIT_APPLY_ACTIONS actions] in
  match buffer_id with
  | Some b =>
      if negb (b =? OFP_NO_BUFFER)
      then FlowMod {| fm_buffer_id := b;
                      fm_priority := priority;
                      fm_match := mtch;
                      fm_instructions := inst;
                      fm_idle_timeout := 0;
                      fm_hard_timeout := 0 |}
      else FlowMod (OFPFlowMod_new priority mtch inst)
  | None => FlowMod (OFPFlowMod_new priority mtch inst)
  end.

(** The table-miss rule installed on [EventOFPSwitchFeatures]. *)
Definition switch_features_handler : list OFPMsg :=
  let mtch : OFPMatch := [] in
  let actions := [OFPActionOutput OFPP_CONTROLLER OFPCML_NO_BUFFER] in
  [add_flow 0 mtch actions None].

(** The frames the handler returns on at once. *)
Definition ignored (eth : ethernet) : bool :=
  (ethertype eth =? ether_types.ETH_TYPE_LLDP)
  || String.prefix "33:33:" (eth_dst eth).

(** What the handler can raise: building the bytes of a packet-out, the
    serialiser asserts that a packet-out with data names no buffer. *)
Inductive exn := AssertionError.

(** [_packet_in_handler]: the state it leaves, the messages sent, and
    what it raised, if it did. *)
Definition _packet_in_outcome (self : t) (ev : EventOFPPacketIn)
    : t * list OFPMsg * option exn :=
  let in_port := ev_in_port ev in
  let eth := pkt_eth (ev_pkt ev) in
  if ignored eth then (self, [], None)
  else
    let dpid := ev_dpid ev in
    (* self.mac_to_port.setdefault(dpid, {}) *)
    let table := default ∅ (mac_to_port self !! dpid) in
    let src := eth_src eth in
    let dst := eth_dst eth in
    (* self.mac_to_port[dpid][src] = in_port *)
    let table := <[src := in_port]> table in
    let self := {| mac_to_port := <[dpid := table]> (mac_to_port self) |} in
    let out_port :=
      match table !! dst with
      | Some p => p
      | None => OFPP_FLOOD
      end in
    let actions := [Output out_port] in
    if negb (out_port =? OFPP_FLOOD)
    then
      let mtch : OFPMatch := [("eth_dst"%string, OXMStr dst)] in
      (self, [add_flow 1 mtch actions (Some (ev_buffer_id ev))], None)
    else
      let out := {| po_buffer_id := ev_buffer_id ev;
                    po_in_port := in_port;
                    po_actions := actions;
                    po_data := RawData (ev_data ev) |} in
      (* datapath.send_msg(out), out being built with data=msg.data *)
      if ev_buffer_id ev =? OFP_NO_BUFFER
      then (self, [PacketOut out], None)
      else (self, [], Some AssertionError).

(** The state the handler leaves and the messages it has sent, whether it
    returns or raises. *)
Definition _packet_in_handler (self : t) (ev : EventOFPPacketIn)
    : t * list OFPMsg :=
  fst (_packet_in_outcome self ev).

(** The handler over a stream of packet-in events: the state it leaves. *)
Definition run (self : t) (evs : list EventOFPPacketIn) : t :=
  foldl (λ s ev, fst (_packet_in_handler s ev)) self evs.
End LearningSwitch13.

(** ** ryu_app_firewall.py *)

Module SimpleFirewall.
Import ofproto_v1_3.

(** What the [try] block of the installation loop can raise: the match
    constructor rejects the keyword arguments, or the write to the
    switch fails. *)
Inductive install_error := MatchError | SendError.

Section Handler.
(** An element of the loaded rule list (any JSON value). *)
Variable match_kwargs : Type.
(** [parser.OFPMatch( **match_kwargs )]; [None] when it raises. *)
Variable parser_OFPMatch : match_kwargs -> option OFPMatch.
(** Whether [datapath.send_msg] returns normally in iteration [i] of
    the loop ([i] counts from 1, as [enumerate(..., start=1)]). *)
Variable send_msg_ok : nat -> bool.

(** [self.drop_rules]. *)
Record t := { drop_rules : list match_kwargs }.

Inductive log_record :=
| LogInstalled (i : nat) (dpid : N) (kw : match_kwargs)
| LogFailed (kw : match_kwargs) (dpid : N) (e : install_error).

(** The flow-mod built for a rule whose match is [mtch]. *)
Definition drop_mod (mtch : OFPMatch) : OFPFlowMod :=
  let inst := [OFPInstructionActions OFPIT_CLEAR_ACTIONS []] in
  OFPFlowMod_new 100 mtch inst.

(** One iteration of the loop: the messages sent and the line logged. *)
Definition install_rule (dpid : N) (i : nat) (kw : match_kwargs)
    : list OFPMsg * log_record :=
  match parser_OFPMatch kw with
  | None => ([], LogFailed kw dpid MatchError)
  | Some mtch =>
      if send_msg_ok i
      then ([FlowMod (drop_mod mtch)], LogInstalled i dpid kw)
      else ([], LogFailed kw dpid SendError)
  end.

(** [for i, match_kwargs in enumerate(rules, start=i)]. *)
Fixpoint install_rules (dpid : N) (i : nat) (rules : list match_kwargs)
    : list OFPMsg * list log_record :=
  match rules with
  | [] => ([], [])
  | kw :: rest =>
      let '(sent, line) := install_rule dpid i kw in
      let '(sent', lines) := install_rules dpid (S i) rest in
      (sent ++ sent', line :: lines)
  end.

Definition switch_features_handler (self : t) (dpid : N)
    : list OFPMsg * list log_record :=
  install_rules dpid 1 (drop_rules self).
End Handler.

Arguments drop_rules {match_kwargs} _.
Arguments LogInstalled {match_kwargs} _ _ _.
Arguments LogFailed {match_kwargs} _ _ _.

(** What [json.load] makes of the rules file: a list, or a JSON value of
    another kind. *)
Inductive json_document (match_kwargs : Type) :=
| JsonList (data : list match_kwargs)
| JsonOther.

Arguments JsonList {match_kwargs} _.
Arguments JsonOther {match_kwargs}.

(** [_load_rules]. [path] is what [os.environ.get('FIREWALL_RULES')]
    returns, [isfile] is [os.path.isfile], and [load] opens and parses
    the file, [None] standing for any exception of the [try] block. *)
Definition _load_rules {match_kwargs : Type} (path : option string)
    (isfile : string -> bool)
    (load : string -> option (json_document match_kwargs))
    : list match_kwargs :=
  let defaults : list match_kwargs := [] in
  match path with
  | Some p =>
      if negb (String.eqb p "") && isfile p
      then
        match load p with
        | Some (JsonList data) => data
        | Some JsonOther => defaults
        | None => defaults
        end
      else defaults
  | None => defaults
  end.

(** [__init__]. *)
Definition init {match_kwargs : Type} (path : option string)
    (isfile : string -> bool)
    (load : string -> option (json_document match_kwargs))
    : t match_kwargs :=
  {| drop_rules := _load_rules path isfile load |}.
End SimpleFirewall.

(** ** ryu_app_load_balancer.py *)

Module SimpleLoadBalancer.
Import ofproto_v1_3.

Definition VIP_IP : string := "10.0.1.100".
Definition VIP_MAC : string := "00:aa:bb:cc:dd:ee".

(** An element of [SERVER_POOL]: [{'ip': ..., 'mac': ...}]. *)
Record server := { ip : string; mac : option string }.

(** The class attribute, as the source spells it. *)
Definition SERVER_POOL_init : list server :=
  [ {| ip := "10.0ping1.1"; mac := None |};
    {| ip := "10.0.1.2"; mac := None |} ].

(** The pool is part of the state: the handler fills in [server['mac']]
    in place. *)
Record t := {
  rr_index : nat;
  ip2mac : gmap string string;
  SERVER_POOL : list server }.

(** [__init__], over the pool the class is declared with. *)
Definition init_with (pool : list server) : t :=
  {| rr_index := 0%nat; ip2mac := ∅; SERVER_POOL := pool |}.

Definition init : t := init_with SERVER_POOL_init.

Inductive exn := IndexError | AddrFormatError | AssertionError.

Inductive outcome :=
| Returned (self : t) (sent : list OFPMsg)
| Raised (e : exn) (self : t) (sent : list OFPMsg).

Definition state_of (o : outcome) : t :=
  match o with Returned s _ | Raised _ s _ => s end.

Definition sent_of (o : outcome) : list OFPMsg :=
  match o with Returned _ m | Raised _ _ m => m end.

(** Truth value of a Python string, and of [None] or a string. *)
Definition truthy (s : string) : bool := negb (String.eqb s "").

Definition truthy_opt (o : option string) : bool :=
  match o with Some s => truthy s | None => false end.

(** [_choose_server]: the position read in the pool, the server found
    there, and the state with the pointer moved; [None] when the index
    is out of range. *)
Definition _choose_server (self : t) : option (nat * server * t) :=
  match SERVER_POOL self !! rr_index self with
  | None => None
  | Some srv =>
      let self' :=
        {| rr_index := (rr_index self + 1) mod length (SERVER_POOL self);
           ip2mac := ip2mac self;
           SERVER_POOL := SERVER_POOL self |} in
      Some (rr_index self, srv, self')
  end.

(** [_add_flow], with its defaults [idle_timeout=30, hard_timeout=0]. *)
Definition _add_flow (priority : N) (mtch : OFPMatch)
    (actions : list OFPAction) : OFPMsg :=
  let inst := [OFPInstructionActions OFPIT_APPLY_ACTIONS actions] in
  FlowMod {| fm_buffer_id := OFP_NO_BUFFER;
             fm_priority := priority;
             fm_match := mtch;
             fm_instructions := inst;
             fm_idle_timeout := 30;
             fm_hard_timeout := 0 |}.

Definition set_ip2mac (self : t) (k v : string) : t :=
  {| rr_index := rr_index self;
     ip2mac := <[k := v]> (ip2mac self);
     SERVER_POOL := SERVER_POOL self |}.

(** [server['mac'] = v] for the server at position [i] of the pool. *)
Definition set_server_mac (self : t) (i : nat) (srv : server)
    (v : option string) : t :=
  {| rr_index := rr_index self;
     ip2mac := ip2mac self;
     SERVER_POOL := <[i := {| ip := ip srv; mac := v |}]> (SERVER_POOL self) |}.

(** The proxy-ARP reply for the VIP. *)
Definition arp_reply (in_port : N) (a : arp) : OFPMsg :=
  let e := {| eth_dst := src_mac a; eth_src := VIP_MAC;
              ethertype := ether_types.ETH_TYPE_ARP |} in
  let r := {| opcode := ARP_REPLY;
              src_mac := VIP_MAC; src_ip := VIP_IP;
              dst_mac := src_mac a; dst_ip := src_ip a |} in
  PacketOut {| po_buffer_id := OFP_NO_BUFFER;
               po_in_port := OFPP_CONTROLLER;
               po_actions := [Output in_port];
               po_data := Serialized e r |}.

(** [dp.send_msg(out)] for a packet-out built with [data=msg.data], after
    the messages [sent]: the serialiser asserts that a packet-out with
    data names no buffer. *)
Definition send_packet_out (self : t) (sent : list OFPMsg)
    (out : OFPPacketOut) : outcome :=
  if po_buffer_id out =? OFP_NO_BUFFER
  then Returned self (sent ++ [PacketOut out])
  else Raised AssertionError self sent.

(** The branch for IPv4 traffic to the VIP, after [_choose_server] gave
    the server [srv] found at position [i]. *)
Definition nat_to_server (self : t) (ev : EventOFPPacketIn) (h : ipv4)
    (i : nat) (srv : server) : outcome :=
  let in_port := ev_in_port ev in
  let eth := pkt_eth (ev_pkt ev) in
  (* if not server['mac']: server['mac'] = self.ip2mac.get(server['ip']);
     [m] is server['mac'] after it, a string in the second branch below *)
  let m := if negb (truthy_opt (mac srv))
           then ip2mac self !! ip srv else mac srv in
  let self := if negb (truthy_opt (mac srv))
              then set_server_mac self i srv m else self in
  if negb (truthy_opt m)
  then
    (* No MAC known yet; flood current packet *)
    send_packet_out self []
      {| po_buffer_id := ev_buffer_id ev;
         po_in_port := in_port;
         po_actions := [Output OFPP_FLOOD];
         po_data := RawData (ev_data ev) |}
  else
    let server_mac := default ""%string m in
    let client_ip := ipv4_src h in
    let match_fwd : OFPMatch :=
      [("eth_type"%string, OXMInt 0x0800);
       ("ipv4_dst"%string, OXMStr VIP_IP)] in
    let actions_fwd :=
      [OFPActionSetField "ipv4_dst" (ip srv);
       OFPActionSetField "eth_dst" server_mac;
       Output (if hasattr_OFPP_NORMAL then OFPP_NORMAL else OFPP_FLOOD)] in
    let match_back : OFPMatch :=
      [("eth_type"%string, OXMInt 0x0800);
       ("ipv4_src"%string, OXMStr (ip srv));
       ("ipv4_dst"%string, OXMStr client_ip)] in
    let actions_back :=
      [OFPActionSetField "ipv4_src" VIP_IP;
       OFPActionSetField "eth_src" VIP_MAC;
       Output in_port] in
    let actions_now :=
      [OFPActionSetField "ipv4_dst" (ip srv);
       OFPActionSetField "eth_dst" server_mac;
       Output OFPP_FLOOD] in
    (* the first send serialises server['ip'], the one address of the
       messages that is neither of a parsed header nor the VIP's *)
    if negb (ipv4_text_ok (ip srv))
    then Raised AddrFormatError self []
    else
      send_packet_out self
        [_add_flow 10 match_fwd actions_fwd;
         _add_flow 10 match_back actions_back]
        {| po_buffer_id := ev_buffer_id ev;
           po_in_port := in_port;
           po_actions := actions_now;
           po_data := RawData (ev_data ev) |}.

(** [packet_in] from the interception of VIP traffic on. The second
    component records which pool position [_choose_server] handed out,
    if it was called: it is not a value of the program, only a trace of
    the call. *)
Definition intercept (self : t) (ev : EventOFPPacketIn)
    : outcome * option nat :=
  match pkt_ipv4 (ev_pkt ev) with
  | Some h =>
      if String.eqb (ipv4_dst h) VIP_IP
      then
        match _choose_server self with
        | None => (Raised IndexError self [], None)
        | Some (i, srv, self) => (nat_to_server self ev h i srv, Some i)
        end
      else (Returned self [], None)
  | None => (Returned self [], None)
  end.

Definition packet_in_traced (self : t) (ev : EventOFPPacketIn)
    : outcome * option nat :=
  let in_port := ev_in_port ev in
  let eth := pkt_eth (ev_pkt ev) in
  let ip4 := pkt_ipv4 (ev_pkt ev) in
  (* Learn IP->MAC from ARP/IP packets *)
  let self :=
    match ip4 with
    | Some h =>
        if truthy (eth_src eth)
        then set_ip2mac self (ipv4_src h) (eth_src eth) else self
    | None => self
    end in
  match pkt_arp (ev_pkt ev) with
  | Some a =>
      let self := set_ip2mac self (src_ip a) (src_mac a) in
      if (opcode a =? ARP_REQUEST) && String.eqb (dst_ip a) VIP_IP
      then (Returned self [arp_reply in_port a], None)
      else intercept self ev
  | None => intercept self ev
  end.

Definition packet_in (self : t) (ev : EventOFPPacketIn) : outcome :=
  fst (packet_in_traced self ev).

(** The handler run over a stream of packet-in events, a raise being
    caught by the event loop: the final state, and the positions handed
    out, in order. *)
Fixpoint run_traced (self : t) (evs : list EventOFPPacketIn)
    : t * list nat :=
  match evs with
  | [] => (self, [])
  | ev :: rest =>
      let '(o, sel) := packet_in_traced self ev in
      let '(self', sels) := run_traced (state_of o) rest in
      (self', match sel with Some i => i :: sels | None => sels end)
  end.

Definition run (self : t) (evs : list EventOFPPacketIn) : t :=
  fst (run_traced self evs).
End SimpleLoadBalancer.

(** ** ryu_app_telemetry.py *)

Module Telemetry13.
Import ofproto_v1_3.

(** The connection object of a switch: its [id], which is all the
    applications read of it, and the [address] of the peer, which tells
    one connection of a switch from the next. *)
Record Datapath := { id : N; address : string * N }.

(** [dpset.EventDP]. *)
Record EventDP := { dp : Datapath; enter : bool }.

(** An entry of [prev_port[dpid]]:
    [(ts, rx_bytes, tx_bytes, rx_pkts, tx_pkts)]. *)
Definition sample : Type := float * Z * Z * Z * Z.

Record t := {
  datapaths : gmap N Datapath;
  prev_port : gmap N (gmap N sample) }.

Definition init : t := {| datapaths := ∅; prev_port := ∅ |}.

Definition _handler_dp (self : t) (ev : EventDP) : t :=
  if enter ev
  then {| datapaths := <[id (dp ev) := dp ev]> (datapaths self);
          prev_port := prev_port self |}
  else {| datapaths := delete (id (dp ev)) (datapaths self);
          prev_port := delete (id (dp ev)) (prev_port self) |}.

(** An element of the body of a port-stats reply. *)
Record OFPPortStats := {
  port_no : N;
  rx_packets : Z; tx_packets : Z;
  rx_bytes : Z; tx_bytes : Z }.

Record EventOFPPortStatsReply := {
  reply_dpid : N;
  body : list OFPPortStats }.

(** A line of [port_stats_<dpid>.csv]. *)
Record row := {
  r_timestamp : float; r_dpid : N; r_port : N;
  r_rx_bytes : Z; r_tx_bytes : Z; r_rx_pkts : Z; r_tx_pkts : Z;
  r_rx_bps : float; r_tx_bps : float; r_rx_pps : float; r_tx_pps : float }.

(** Conversion of a Python [int] in arithmetic with a float: the nearest
    binary64, ties to even. *)
Definition float_of_int (z : Z) : float :=
  SF2Prim (binary_normalize 53 1024 z 0 false).

(** [max(a, b)] of Python: the first argument unless the second is
    greater. *)
Definition max (a b : float) : float :=
  if PrimFloat.ltb a b then b else a.

(** The literal [1e-9]: the binary64 nearest to it. *)
Definition epsilon : float := 0x1.12e0be826d695p-30%float.

(** The four rates of a port, given its previous sample. *)
Definition rates (now : float) (prev : sample) (stat : OFPPortStats)
    : float * float * float * float :=
  let '(ts0, rx0, tx0, rpk0, tpk0) := prev in
  let dt := max epsilon (now - ts0)%float in
  let bps_rx := (8.0 * float_of_int (rx_bytes stat - rx0) / dt)%float in
  let bps_tx := (8.0 * float_of_int (tx_bytes stat - tx0) / dt)%float in
  let pps_rx := (float_of_int (rx_packets stat - rpk0) / dt)%float in
  let pps_tx := (float_of_int (tx_packets stat - tpk0) / dt)%float in
  (bps_rx, bps_tx, pps_rx, pps_tx).

(** The quotient of [num] by [den], both positive, rounded to the nearest
    integer, a tie to the even one. *)
Definition round_half_even (num den : Z) : Z :=
  let q := (num / den)%Z in
  let r := (num mod den)%Z in
  match (2 * r ?= den)%Z with
  | Lt => q
  | Gt => (q + 1)%Z
  | Eq => if Z.even q then q else (q + 1)%Z
  end.

(** The builtin [round(x, 2)] on a float: zeros, infinities and NaN are
    returned as they are; a finite [x] of magnitude [m * 2^e] goes to the
    float nearest to [n / 100], [n] being the integer nearest to
    [100 * m * 2^e], a tie to the even one. Below [2^53] that float is
    the correctly rounded quotient of [n] by [100.0]; from there on it is
    [x]. *)
Definition round2 (x : float) : float :=
  match Prim2SF x with
  | S754_finite s m e =>
      let n := if (0 <=? e)%Z then (Zpos m * 100 * 2 ^ e)%Z
               else round_half_even (Zpos m * 100) (2 ^ (- e)) in
      if (n <? 2 ^ 53)%Z
      then let q := (float_of_int n / 100)%float in
           if s then (- q)%float else q
      else x
  | _ => x
  end.

(** The body of the loop over [ev.msg.body]: the table [prev] of the
    switch after the port, and the row appended, if any. *)
Definition port_stat (now : float) (dpid : N) (prev : gmap N sample)
    (stat : OFPPortStats) : gmap N sample * option row :=
  if OFPP_MAX <=? port_no stat then (prev, None)
  else
    let '(bps_rx, bps_tx, pps_rx, pps_tx) :=
      match prev !! port_no stat with
      | Some s => rates now s stat
      | None => (0.0, 0.0, 0.0, 0.0)%float
      end in
    let prev :=
      <[port_no stat := (now, rx_bytes stat, tx_bytes stat,
                         rx_packets stat, tx_packets stat)]> prev in
    (prev,
     Some {| r_timestamp := now; r_dpid := dpid; r_port := port_no stat;
             r_rx_bytes := rx_bytes stat; r_tx_bytes := tx_bytes stat;
             r_rx_pkts := rx_packets stat; r_tx_pkts := tx_packets stat;
             r_rx_bps := round2 bps_rx; r_tx_bps := round2 bps_tx;
             r_rx_pps := round2 pps_rx; r_tx_pps := round2 pps_tx |}).

Fixpoint port_stats (now : float) (dpid : N) (prev : gmap N sample)
    (stats : list OFPPortStats) : gmap N sample * list row :=
  match stats with
  | [] => (prev, [])
  | stat :: rest =>
      let '(prev, r) := port_stat now dpid prev stat in
      let '(prev, rows) := port_stats now dpid prev rest in
      (prev, match r with Some x => x :: rows | None => rows end)
  end.

(** [port_stats_reply_handler], [now] being what [time.time()]
    returns: the new state and [rows]; a non-empty [rows] is appended
    to the file of the switch. *)
Definition port_stats_reply_handler (self : t)
    (ev : EventOFPPortStatsReply) (now : float) : t * list row :=
  let dpid := reply_dpid ev in
  (* prev = self.prev_port.setdefault(dpid, {}) *)
  let prev := default ∅ (prev_port self !! dpid) in
  let '(prev, rows) := port_stats now dpid prev (body ev) in
  ({| datapaths := datapaths self;
      prev_port := <[dpid := prev]> (prev_port self) |}, rows).

(** An element of the body of a flow-stats reply. The handler reads the
    attributes with [getattr] and a default: [None] is an attribute the
    object does not have. *)
Record OFPFlowStats := {
  fs_cookie : option N;
  fs_priority : option N;
  fs_packet_count : option N;
  fs_byte_count : option N;
  fs_match : option OFPMatch }.

Record EventOFPFlowStatsReply := {
  flow_reply_dpid : N;
  flow_body : list OFPFlowStats }.

(** A line of [flow_stats_<dpid>.csv]; [f_match] is the list of fields
    the match gives as [oxm_fields]. *)
Record flow_row := {
  f_timestamp : float; f_dpid : N;
  f_cookie : N; f_priority : N;
  f_packet_count : N; f_byte_count : N;
  f_match : OFPMatch }.

(** The body of the loop of [flow_stats_reply_handler]: the row appended
    for an entry, none for an entry of priority 0. *)
Definition flow_stat (now : float) (dpid : N) (stat : OFPFlowStats)
    : option flow_row :=
  if default 0 (fs_priority stat) =? 0 then None
  else
    Some {| f_timestamp := now; f_dpid := dpid;
            f_cookie := default 0 (fs_cookie stat);
            f_priority := default 0 (fs_priority stat);
            f_packet_count := default 0 (fs_packet_count stat);
            f_byte_count := default 0 (fs_byte_count stat);
            f_match := default [] (fs_match stat) |}.

(** The [rows] of [flow_stats_reply_handler]. *)
Fixpoint flow_rows (now : float) (dpid : N) (stats : list OFPFlowStats)
    : list flow_row :=
  match stats with
  | [] => []
  | stat :: rest =>
      match flow_stat now dpid stat with
      | Some r => r :: flow_rows now dpid rest
      | None => flow_rows now dpid rest
      end
  end.

(** The files under [logs_dir]: [port_stats_<dpid>.csv] is [inl dpid],
    [flow_stats_<dpid>.csv] is [inr dpid]. *)
Definition csv_path : Type := N + N.

Inductive csv_line :=
| HeaderLine (fieldnames : list string)
| PortLine (r : row)
| FlowLine (r : flow_row).

(** [_append_csv]: the files after the call. A file that is not there is
    created, and gets the header before the rows. *)
Definition _append_csv (files : gmap csv_path (list csv_line))
    (path : csv_path) (rows : list csv_line) (header : list string)
    : gmap csv_path (list csv_line) :=
  match files !! path with
  | Some content => <[path := content ++ rows]> files
  | None => <[path := HeaderLine header :: rows]> files
  end.

Definition port_header : list string :=
  ["timestamp"; "dpid"; "port"; "rx_bytes"; "tx_bytes"; "rx_pkts";
   "tx_pkts"; "rx_bps"; "tx_bps"; "rx_pps"; "tx_pps"]%string.

Definition flow_header : list string :=
  ["timestamp"; "dpid"; "cookie"; "priority"; "packet_count";
   "byte_count"; "match"]%string.

(** [port_stats_reply_handler] with the files it writes: rows, if there
    are any, go to the port file of the switch. *)
Definition port_stats_reply_written (self : t)
    (files : gmap csv_path (list csv_line))
    (ev : EventOFPPortStatsReply) (now : float)
    : t * gmap csv_path (list csv_line) :=
  let '(self, rows) := port_stats_reply_handler self ev now in
  match rows with
  | [] => (self, files)
  | _ =>
      (self, _append_csv files (inl (reply_dpid ev)) (PortLine <$> rows)
               port_header)
  end.

(** [flow_stats_reply_handler]: the files after the call. *)
Definition flow_stats_reply_handler (files : gmap csv_path (list csv_line))
    (ev : EventOFPFlowStatsReply) (now : float)
    : gmap csv_path (list csv_line) :=
  let rows := flow_rows now (flow_reply_dpid ev) (flow_body ev) in
  match rows with
  | [] => files
  | _ =>
      _append_csv files (inr (flow_reply_dpid ev)) (FlowLine <$> rows)
        flow_header
  end.

(** A statistics reply, with the time at which its handler runs. *)
Inductive stats_reply :=
| PortStatsReply (ev : EventOFPPortStatsReply) (now : float)
| FlowStatsReply (ev : EventOFPFlowStatsReply) (now : float).

Definition on_stats_reply
    (st : t * gmap csv_path (list csv_line)) (r : stats_reply)
    : t * gmap csv_path (list csv_line) :=
  match r with
  | PortStatsReply ev now => port_stats_reply_written (fst st) (snd st) ev now
  | FlowStatsReply ev now =>
      (fst st, flow_stats_reply_handler (snd st) ev now)
  end.

(** The handlers over a stream of switch events, and over a stream of
    statistics replies. *)
Definition run_dp (self : t) (evs : list EventDP) : t :=
  foldl _handler_dp self evs.

Definition run_stats (st : t * gmap csv_path (list csv_line))
    (rs : list stats_reply) : t * gmap csv_path (list csv_line) :=
  foldl on_stats_reply st rs.
End Telemetry13.

(** ** The applications under one Ryu manager *)

Module Controller.
(** The state of the applications whose state changes with the events. *)
Record t := {
  learning_switch : LearningSwitch13.t;
  load_balancer : SimpleLoadBalancer.t;
  telemetry : Telemetry13.t }.

Definition init : t :=
  {| learning_switch := LearningSwitch13.init;
     load_balancer := SimpleLoadBalancer.init;
     telemetry := Telemetry13.init |}.

(** Delivery of a [dpset.EventDP]: [Telemetry13._handler_dp] is the one
    handler registered for it ([set_ev_cls(dpset.EventDP, ...)]). *)
Definition on_EventDP (c : t) (ev : Telemetry13.EventDP) : t :=
  {| learning_switch := learning_switch c;
     load_balancer := load_balancer c;
     telemetry := Telemetry13._handler_dp (telemetry c) ev |}.

(** Delivery of a packet-in to the learning switch. *)
Definition on_PacketIn_learning (c : t) (ev : EventOFPPacketIn)
    : t * list OFPMsg :=
  let '(ls, sent) :=
    LearningSwitch13._packet_in_handler (learning_switch c) ev in
  ({| learning_switch := ls;
      load_balancer := load_balancer c;
      telemetry := telemetry c |}, sent).
End Controller.

(** ** Vocabulary of the statements *)

(** The table of the switch of [ev] once the source address of [ev] has
    been recorded on its ingress port. *)
Definition learned (self : LearningSwitch13.t) (ev : EventOFPPacketIn)
    : gmap string N :=
  <[eth_src (pkt_eth (ev_pkt ev)) := ev_in_port ev]>
    (default ∅ (LearningSwitch13.mac_to_port self !! ev_dpid ev)).

(** The entries of a table for one address. *)
Definition entries_for (table : gmap string N) (mac_addr : string)
    : list (string * N) :=
  filter (λ kv : string * N, kv.1 = mac_addr) (map_to_list table).

(** No learned port is the reserved port [OFPP_FLOOD]. *)
Definition real_ports (self : LearningSwitch13.t) : Prop :=
  ∀ (dpid : N) (table : gmap string N) (mac_addr : string) (p : N),
    LearningSwitch13.mac_to_port self !! dpid = Some table ->
    table !! mac_addr = Some p ->
    p ≠ ofproto_v1_3.OFPP_FLOOD.

(** The packet-in is IPv4 traffic addressed to the VIP. *)
Definition to_vip (ev : EventOFPPacketIn) : bool :=
  match pkt_ipv4 (ev_pkt ev) with
  | Some h => String.eqb (ipv4_dst h) SimpleLoadBalancer.VIP_IP
  | None => false
  end.

(** The packet-in is an ARP request for the VIP, which the load balancer
    answers itself. *)
Definition vip_arp_request (ev : EventOFPPacketIn) : bool :=
  match pkt_arp (ev_pkt ev) with
  | Some a =>
      (opcode a =? ARP_REQUEST)
      && String.eqb (dst_ip a) SimpleLoadBalancer.VIP_IP
  | None => false
  end.

(** The packet-in leads the load balancer to pick a backend. *)
Definition vip_decision (ev : EventOFPPacketIn) : bool :=
  to_vip ev && negb (vip_arp_request ev).

(** The rotation pointer is a position of the pool. *)
Definition pointer_in_range (self : SimpleLoadBalancer.t) : Prop :=
  (SimpleLoadBalancer.rr_index self
   < length (SimpleLoadBalancer.SERVER_POOL self))%nat.

(** [K] positions of a pool of size [n] in rotating order, from [i]. *)
Fixpoint rotation (n i K : nat) : list nat :=
  match K with
  | O => []
  | S K' => i :: rotation n ((i + 1) mod n) K'
  end.

(** The address cache once the handler has recorded what the packet-in
    shows: the source of an IPv4 header, the sender of an ARP payload. *)
Definition observed (self : SimpleLoadBalancer.t) (ev : EventOFPPacketIn)
    : gmap string string :=
  let cache := SimpleLoadBalancer.ip2mac self in
  let cache :=
    match pkt_ipv4 (ev_pkt ev) with
    | Some h =>
        if SimpleLoadBalancer.truthy (eth_src (pkt_eth (ev_pkt ev)))
        then <[ipv4_src h := eth_src (pkt_eth (ev_pkt ev))]> cache
        else cache
    | None => cache
    end in
  match pkt_arp (ev_pkt ev) with
  | Some a => <[src_ip a := src_mac a]> cache
  | None => cache
  end.

(** The MAC the handler ends up with for a backend: the one the pool has,
    or else the one of the address cache. *)
Definition resolved_mac (self : SimpleLoadBalancer.t) (ev : EventOFPPacketIn)
    (srv : SimpleLoadBalancer.server) : option string :=
  if SimpleLoadBalancer.truthy_opt (SimpleLoadBalancer.mac srv)
  then SimpleLoadBalancer.mac srv
  else observed self ev !! SimpleLoadBalancer.ip srv.

(** The packet-out that floods the packet-in unchanged. *)
Definition flood_unchanged (ev : EventOFPPacketIn) : OFPMsg :=
  PacketOut {| po_buffer_id := ev_buffer_id ev;
               po_in_port := ev_in_port ev;
               po_actions := [Output ofproto_v1_3.OFPP_FLOOD];
               po_data := RawData (ev_data ev) |}.

(** The three messages of the translation to a backend [srv] that has
    the MAC [server_mac], for the packet-in [ev] of a client whose IPv4
    header is [h]. *)
Definition forward_rule (srv : SimpleLoadBalancer.server)
    (server_mac : string) : OFPFlowMod :=
  {| fm_buffer_id := ofproto_v1_3.OFP_NO_BUFFER;
     fm_priority := 10;
     fm_match := [("eth_type"%string, OXMInt 0x0800);
                  ("ipv4_dst"%string, OXMStr SimpleLoadBalancer.VIP_IP)];
     fm_instructions :=
       [OFPInstructionActions OFPIT_APPLY_ACTIONS
          [OFPActionSetField "ipv4_dst" (SimpleLoadBalancer.ip srv);
           OFPActionSetField "eth_dst" server_mac;
           Output ofproto_v1_3.OFPP_NORMAL]];
     fm_idle_timeout := 30;
     fm_hard_timeout := 0 |}.

Definition reverse_rule (srv : SimpleLoadBalancer.server)
    (ev : EventOFPPacketIn) (h : ipv4) : OFPFlowMod :=
  {| fm_buffer_id := ofproto_v1_3.OFP_NO_BUFFER;
     fm_priority := 10;
     fm_match := [("eth_type"%string, OXMInt 0x0800);
                  ("ipv4_src"%string, OXMStr (SimpleLoadBalancer.ip srv));
                  ("ipv4_dst"%string, OXMStr (ipv4_src h))];
     fm_instructions :=
       [OFPInstructionActions OFPIT_APPLY_ACTIONS
          [OFPActionSetField "ipv4_src" SimpleLoadBalancer.VIP_IP;
           OFPActionSetField "eth_src" SimpleLoadBalancer.VIP_MAC;
           Output (ev_in_port ev)]];
     fm_idle_timeout := 30;
     fm_hard_timeout := 0 |}.

Definition rewritten_packet (srv : SimpleLoadBalancer.server)
    (server_mac : string) (ev : EventOFPPacketIn) : OFPPacketOut :=
  {| po_buffer_id := ev_buffer_id ev;
     po_in_port := ev_in_port ev;
     po_actions := [OFPActionSetField "ipv4_dst" (SimpleLoadBalancer.ip srv);
                    OFPActionSetField "eth_dst" server_mac;
                    Output ofproto_v1_3.OFPP_FLOOD];
     po_data := RawData (ev_data ev) |}.

(** The state the handler leaves after a decision for the backend [srv]
    under the pointer: the pointer moved, the cache with what the
    packet-in shows, and the MAC field of the backend looked up again if
    it was not set. *)
Definition decided (self : SimpleLoadBalancer.t) (ev : EventOFPPacketIn)
    (srv : SimpleLoadBalancer.server) : SimpleLoadBalancer.t :=
  {| SimpleLoadBalancer.rr_index :=
       ((SimpleLoadBalancer.rr_index self + 1)
        mod length (SimpleLoadBalancer.SERVER_POOL self))%nat;
     SimpleLoadBalancer.ip2mac := observed self ev;
     SimpleLoadBalancer.SERVER_POOL :=
       if SimpleLoadBalancer.truthy_opt (SimpleLoadBalancer.mac srv)
       then SimpleLoadBalancer.SERVER_POOL self
       else <[SimpleLoadBalancer.rr_index self :=
                {| SimpleLoadBalancer.ip := SimpleLoadBalancer.ip srv;
                   SimpleLoadBalancer.mac := resolved_mac self ev srv |}]>
              (SimpleLoadBalancer.SERVER_POOL self) |}.


(** The flow-mod behind a line of the firewall's log: the drop rule of a
    rule logged as installed, nothing for a rule logged as failed. *)
Definition installed_mod {match_kwargs : Type}
    (parser_OFPMatch : match_kwargs -> option OFPMatch)
    (line : SimpleFirewall.log_record match_kwargs) : option OFPMsg :=
  match line with
  | SimpleFirewall.LogInstalled _ _ kw =>
      match parser_OFPMatch kw with
      | Some mtch => Some (FlowMod (SimpleFirewall.drop_mod mtch))
      | None => None
      end
  | SimpleFirewall.LogFailed _ _ _ => None
  end.

(** The line the firewall logs for the rule [kw] handled in iteration
    [i]. *)
Definition logged {match_kwargs : Type}
    (parser_OFPMatch : match_kwargs -> option OFPMatch)
    (send_msg_ok : nat -> bool) (dpid : N) (i : nat) (kw : match_kwargs)
    : SimpleFirewall.log_record match_kwargs :=
  match parser_OFPMatch kw with
  | None => SimpleFirewall.LogFailed kw dpid SimpleFirewall.MatchError
  | Some _ =>
      if send_msg_ok i
      then SimpleFirewall.LogInstalled i dpid kw
      else SimpleFirewall.LogFailed kw dpid SimpleFirewall.SendError
  end.

(** A flow-mod that drops what [mtch] matches: priority 100, one
    instruction that clears the action set, no action. *)
Definition drop_rule_for (mtch : OFPMatch) : OFPMsg :=
  FlowMod {| fm_buffer_id := ofproto_v1_3.OFP_NO_BUFFER;
             fm_priority := 100;
             fm_match := mtch;
             fm_instructions :=
               [OFPInstructionActions OFPIT_CLEAR_ACTIONS []];
             fm_idle_timeout := 0;
             fm_hard_timeout := 0 |}.

(** The sample the telemetry keeps for a port after a reply. *)
Definition sample_of (now : float) (stat : Telemetry13.OFPPortStats)
    : Telemetry13.sample :=
  (now, Telemetry13.rx_bytes stat, Telemetry13.tx_bytes stat,
   Telemetry13.rx_packets stat, Telemetry13.tx_packets stat).

(** The rows of a reply that are about one port. *)
Definition rows_for (port : N) (rows : list Telemetry13.row)
    : list Telemetry13.row :=
  List.filter (λ r, Telemetry13.r_port r =? port) rows.

(** The sample of a port of a switch in the telemetry state. *)
Definition baseline (self : Telemetry13.t) (dpid port : N)
    : option Telemetry13.sample :=
  Telemetry13.prev_port self !! dpid ≫= (λ prev, prev !! port).

(** The port the learning switch has for an address on a switch. *)
Definition port_of (self : LearningSwitch13.t) (dpid : N) (mac_addr : string)
    : option N :=
  LearningSwitch13.mac_to_port self !! dpid ≫= (λ table, table !! mac_addr).

(** The packet-in makes the learning switch record [mac_addr] on switch
    [dpid]: it is not ignored, comes from that switch and has that
    source. *)
Definition observes (dpid : N) (mac_addr : string) (ev : EventOFPPacketIn)
    : bool :=
  negb (LearningSwitch13.ignored (pkt_eth (ev_pkt ev)))
  && (ev_dpid ev =? dpid)
  && String.eqb (eth_src (pkt_eth (ev_pkt ev))) mac_addr.

(** The ingress port of the last packet-in of a stream that records
    [mac_addr] on switch [dpid]. *)
Definition last_seen (dpid : N) (mac_addr : string)
    (evs : list EventOFPPacketIn) : option N :=
  ev_in_port <$> last (List.filter (observes dpid mac_addr) evs).

(** The header of a file of the telemetry, by its kind. *)
Definition header_of (path : Telemetry13.csv_path) : list string :=
  match path with
  | inl _ => Telemetry13.port_header
  | inr _ => Telemetry13.flow_header
  end.

(** A line is a row of the kind of the file, about the switch of the
    file. *)
Definition row_of_file (path : Telemetry13.csv_path)
    (line : Telemetry13.csv_line) : Prop :=
  match path, line with
  | inl dpid, Telemetry13.PortLine r => Telemetry13.r_dpid r = dpid
  | inr dpid, Telemetry13.FlowLine r => Telemetry13.f_dpid r = dpid
  | _, _ => False
  end.

(** A file holds its header, once and first, then at least one row, all
    rows being of its kind and switch. *)
Definition well_formed_file (path : Telemetry13.csv_path)
    (content : list Telemetry13.csv_line) : Prop :=
  ∃ lines, content = Telemetry13.HeaderLine (header_of path) :: lines
           ∧ lines ≠ []
           ∧ Forall (row_of_file path) lines.

(** The switch a statistics reply is about, and the file its rows go
    to. *)
Definition switch_of (r : Telemetry13.stats_reply) : N :=
  match r with
  | Telemetry13.PortStatsReply ev _ => Telemetry13.reply_dpid ev
  | Telemetry13.FlowStatsReply ev _ => Telemetry13.flow_reply_dpid ev
  end.

Definition file_of (r : Telemetry13.stats_reply) : Telemetry13.csv_path :=
  match r with
  | Telemetry13.PortStatsReply ev _ => inl (Telemetry13.reply_dpid ev)
  | Telemetry13.FlowStatsReply ev _ => inr (Telemetry13.flow_reply_dpid ev)
  end.

(** The last event of a stream about switch [dpid]. *)
Definition last_event (dpid : N) (evs : list Telemetry13.EventDP)
    : option Telemetry13.EventDP :=
  last (List.filter (λ ev, Telemetry13.id (Telemetry13.dp ev) =? dpid) evs).

(** Some event of the stream says that switch [dpid] left. *)
Definition has_left (dpid : N) (evs : list Telemetry13.EventDP) : bool :=
  existsb (λ ev, negb (Telemetry13.enter ev)
                 && (Telemetry13.id (Telemetry13.dp ev) =? dpid)) evs.

(** ** Sample events *)

(** A spanning-tree BPDU: an 802.3 frame (the type field is a length) to
    the reserved bridge group address. *)
Definition bpdu_in : EventOFPPacketIn :=
  {| ev_dpid := 1;
     ev_in_port := 3;
     ev_buffer_id := ofproto_v1_3.OFP_NO_BUFFER;
     ev_data := [];
     ev_pkt := {| pkt_eth := {| eth_dst := "01:80:c2:00:00:00";
                                eth_src := "00:00:00:00:00:01";
                                ethertype := 0x26 |};
                  pkt_ipv4 := None;
                  pkt_arp := None |} |}.

(** Two replies of switch 1 about its port 1: 1000 bytes received, then
    3000. *)
Definition first_reply : Telemetry13.EventOFPPortStatsReply :=
  {| Telemetry13.reply_dpid := 1;
     Telemetry13.body :=
       [ {| Telemetry13.port_no := 1;
            Telemetry13.rx_packets := 10; Telemetry13.tx_packets := 0;
            Telemetry13.rx_bytes := 1000; Telemetry13.tx_bytes := 0 |} ] |}.

Definition second_port_stats : Telemetry13.OFPPortStats :=
  {| Telemetry13.port_no := 1;
     Telemetry13.rx_packets := 30; Telemetry13.tx_packets := 0;
     Telemetry13.rx_bytes := 3000; Telemetry13.tx_bytes := 0 |}.

Definition second_reply : Telemetry13.EventOFPPortStatsReply :=
  {| Telemetry13.reply_dpid := 1;
     Telemetry13.body := [second_port_stats] |}.

(** A host on port 1 of switch 1 broadcasts a frame. *)
Definition host_in : EventOFPPacketIn :=
  {| ev_dpid := 1;
     ev_in_port := 1;
     ev_buffer_id := ofproto_v1_3.OFP_NO_BUFFER;
     ev_data := [];
     ev_pkt := {| pkt_eth := {| eth_dst := "ff:ff:ff:ff:ff:ff";
                                eth_src := "00:00:00:00:00:aa";
                                ethertype := 0x0806 |};
                  pkt_ipv4 := None;
                  pkt_arp := None |} |}.

(** Two connections of switch 1. *)
Definition session_a : Telemetry13.Datapath :=
  {| Telemetry13.id := 1; Telemetry13.address := ("10.0.0.1"%string, 40000) |}.

Definition session_b : Telemetry13.Datapath :=
  {| Telemetry13.id := 1; Telemetry13.address := ("10.0.0.1"%string, 40002) |}.

(** Switch 1 connects, a host is seen on its port 1, the switch leaves,
    and connects again. *)
Definition before_leave : Controller.t :=
  fst (Controller.on_PacketIn_learning
         (Controller.on_EventDP Controller.init
            {| Telemetry13.dp := session_a; Telemetry13.enter := true |})
         host_in).

Definition after_leave : Controller.t :=
  Controller.on_EventDP before_leave
    {| Telemetry13.dp := session_a; Telemetry13.enter := false |}.

Definition after_rejoin : Controller.t :=
  Controller.on_EventDP after_leave
    {| Telemetry13.dp := session_b; Telemetry13.enter := true |}.

(** The learning switch once [host_in] has been handled, and a frame sent
    back to that host from port 2. *)
Definition host_known : LearningSwitch13.t :=
  fst (LearningSwitch13._packet_in_handler LearningSwitch13.init host_in).

Definition reply_in : EventOFPPacketIn :=
  {| ev_dpid := 1;
     ev_in_port := 2;
     ev_buffer_id := ofproto_v1_3.OFP_NO_BUFFER;
     ev_data := [];
     ev_pkt := {| pkt_eth := {| eth_dst := "00:00:00:00:00:aa";
                                eth_src := "00:00:00:00:00:bb";
                                ethertype := 0x0806 |};
                  pkt_ipv4 := None;
                  pkt_arp := None |} |}.

(** The host of [host_in], seen again on port 5. *)
Definition host_moved_in : EventOFPPacketIn :=
  {| ev_dpid := 1;
     ev_in_port := 5;
     ev_buffer_id := ofproto_v1_3.OFP_NO_BUFFER;
     ev_data := [];
     ev_pkt := ev_pkt host_in |}.

(** An LLDP frame. *)
Definition lldp_in : EventOFPPacketIn :=
  {| ev_dpid := 1;
     ev_in_port := 3;
     ev_buffer_id := ofproto_v1_3.OFP_NO_BUFFER;
     ev_data := [];
     ev_pkt := {| pkt_eth := {| eth_dst := "01:80:c2:00:00:0e";
                                eth_src := "00:00:00:00:00:01";
                                ethertype := 0x88cc |};
                  pkt_ipv4 := None;
                  pkt_arp := None |} |}.

(** A client sends an IPv4 packet to the VIP; it comes in on port 4. *)
Definition client_in : EventOFPPacketIn :=
  {| ev_dpid := 1;
     ev_in_port := 4;
     ev_buffer_id := ofproto_v1_3.OFP_NO_BUFFER;
     ev_data := [];
     ev_pkt := {| pkt_eth := {| eth_dst := "00:aa:bb:cc:dd:ee";
                                eth_src := "00:00:00:00:00:c1";
                                ethertype := 0x0800 |};
                  pkt_ipv4 := Some {| ipv4_src := "10.0.2.5";
                                      ipv4_dst := "10.0.1.100" |};
                  pkt_arp := None |} |}.

Definition client_header : ipv4 :=
  {| ipv4_src := "10.0.2.5"; ipv4_dst := "10.0.1.100" |}.

(** The load balancer when the address of the first backend has been
    seen. *)
Definition backend_seen : SimpleLoadBalancer.t :=
  {| SimpleLoadBalancer.rr_index := 0;
     SimpleLoadBalancer.ip2mac :=
       {[ "10.0ping1.1"%string := "00:00:00:00:00:01"%string ]};
     SimpleLoadBalancer.SERVER_POOL := SimpleLoadBalancer.SERVER_POOL_init |}.

Definition first_backend : SimpleLoadBalancer.server :=
  {| SimpleLoadBalancer.ip := "10.0ping1.1"; SimpleLoadBalancer.mac := None |}.

(** Packets to the VIP among other traffic. *)
Definition sample_stream : list EventOFPPacketIn :=
  [client_in; host_in; client_in; client_in].

(** The telemetry once [first_reply] has been handled at time 0. *)
Definition sampled_once : Telemetry13.t :=
  fst (Telemetry13.port_stats_reply_handler Telemetry13.init first_reply 0).

(** An ARP request for the VIP, from the client of [client_in]. *)
Definition vip_request : arp :=
  {| opcode := ARP_REQUEST;
     src_mac := "00:00:00:00:00:c1"; src_ip := "10.0.2.5";
     dst_mac := "00:00:00:00:00:00"; dst_ip := "10.0.1.100" |}.

Definition vip_request_in : EventOFPPacketIn :=
  {| ev_dpid := 1;
     ev_in_port := 4;
     ev_buffer_id := ofproto_v1_3.OFP_NO_BUFFER;
     ev_data := [];
     ev_pkt := {| pkt_eth := {| eth_dst := "ff:ff:ff:ff:ff:ff";
                                eth_src := "00:00:00:00:00:c1";
                                ethertype := 0x0806 |};
                  pkt_ipv4 := None;
                  pkt_arp := Some vip_request |} |}.

(** An ARP reply of the first backend to the client. *)
Definition backend_arp : arp :=
  {| opcode := ARP_REPLY;
     src_mac := "00:00:00:00:00:01"; src_ip := "10.0ping1.1";
     dst_mac := "00:00:00:00:00:c1"; dst_ip := "10.0.2.5" |}.

Definition backend_arp_in : EventOFPPacketIn :=
  {| ev_dpid := 1;
     ev_in_port := 7;
     ev_buffer_id := ofproto_v1_3.OFP_NO_BUFFER;
     ev_data := [];
     ev_pkt := {| pkt_eth := {| eth_dst := "00:00:00:00:00:c1";
                                eth_src := "00:00:00:00:00:01";
                                ethertype := 0x0806 |};
                  pkt_ipv4 := None;
                  pkt_arp := Some backend_arp |} |}.

(** The load balancer with the MAC of the first backend in the pool, and
    the one with no backend at all. *)
Definition backend_resolved : SimpleLoadBalancer.server :=
  {| SimpleLoadBalancer.ip := "10.0ping1.1";
     SimpleLoadBalancer.mac := Some "00:00:00:00:00:01"%string |}.

Definition pool_filled : SimpleLoadBalancer.t :=
  SimpleLoadBalancer.init_with
    [backend_resolved;
     {| SimpleLoadBalancer.ip := "10.0.1.2"; SimpleLoadBalancer.mac := None |}].

Definition no_backend : SimpleLoadBalancer.t :=
  SimpleLoadBalancer.init_with [].

(** The second backend, an ARP reply of it to the client, and the load
    balancer after the first packet of the client (flooded, the first
    backend having no MAC) and after that ARP reply: the pointer is on
    the second backend, whose address is in the cache. *)
Definition second_backend : SimpleLoadBalancer.server :=
  {| SimpleLoadBalancer.ip := "10.0.1.2"; SimpleLoadBalancer.mac := None |}.

Definition second_backend_arp : arp :=
  {| opcode := ARP_REPLY;
     src_mac := "00:00:00:00:00:02"; src_ip := "10.0.1.2";
     dst_mac := "00:00:00:00:00:c1"; dst_ip := "10.0.2.5" |}.

Definition second_backend_arp_in : EventOFPPacketIn :=
  {| ev_dpid := 1;
     ev_in_port := 8;
     ev_buffer_id := ofproto_v1_3.OFP_NO_BUFFER;
     ev_data := [];
     ev_pkt := {| pkt_eth := {| eth_dst := "00:00:00:00:00:c1";
                                eth_src := "00:00:00:00:00:02";
                                ethertype := 0x0806 |};
                  pkt_ipv4 := None;
                  pkt_arp := Some second_backend_arp |} |}.

Definition after_first_flood : SimpleLoadBalancer.t :=
  SimpleLoadBalancer.state_of
    (SimpleLoadBalancer.packet_in SimpleLoadBalancer.init client_in).

Definition second_backend_seen : SimpleLoadBalancer.t :=
  SimpleLoadBalancer.state_of
    (SimpleLoadBalancer.packet_in after_first_flood second_backend_arp_in).

(** The packet of the client, held in buffer 7 of the switch. *)
Definition client_in_buffered : EventOFPPacketIn :=
  {| ev_dpid := 1;
     ev_in_port := 4;
     ev_buffer_id := 7;
     ev_data := [];
     ev_pkt := ev_pkt client_in |}.

(** The two replies of switch 1, in a stream. *)
Definition two_replies : list Telemetry13.stats_reply :=
  [Telemetry13.PortStatsReply first_reply 0;
   Telemetry13.PortStatsReply second_reply 2].

(** * Properties *)

(** ** The learning switch *)

Section LearningSwitchFacts.
Import ofproto_v1_3 LearningSwitch13.

Lemma packet_in_state (self : LearningSwitch13.t) (ev : EventOFPPacketIn) :
  ignored (pkt_eth (ev_pkt ev)) = false ->
  mac_to_port (fst (_packet_in_handler self ev))
  = <[ev_dpid ev := learned self ev]> (mac_to_port self).
Proof.
  intros Hi. unfold _packet_in_handler, _packet_in_outcome. rewrite Hi.
  fold (learned self ev).
  destruct (negb _); [|destruct (ev_buffer_id ev =? OFP_NO_BUFFER)];
    reflexivity.
Qed.

Lemma packet_in_table (self : LearningSwitch13.t) (ev : EventOFPPacketIn) :
  ignored (pkt_eth (ev_pkt ev)) = false ->
  mac_to_port (fst (_packet_in_handler self ev)) !! ev_dpid ev
  = Some (learned self ev).
Proof.
  intros Hi. rewrite packet_in_state by assumption.
  apply lookup_insert_eq.
Qed.

Lemma state_eq (s1 s2 : LearningSwitch13.t) :
  mac_to_port s1 = mac_to_port s2 -> s1 = s2.
Proof. destruct s1, s2; simpl; congruence. Qed.

Lemma filter_key_absent (l : list (string * N)) (k : string) :
  k ∉ l.*1 -> filter (λ kv : string * N, kv.1 = k) l = [].
Proof.
  induction l as [|[k' v'] l IH]; intros Hk; [reflexivity|].
  simpl in Hk. apply not_elem_of_cons in Hk as [Hne Hk].
  rewrite filter_cons_False by (simpl; congruence). auto.
Qed.

(** A list of pairs with distinct keys holds one pair for a key it
    has. *)
Lemma filter_key_singleton (l : list (string * N)) (k : string) (v : N) :
  NoDup l.*1 -> (k, v) ∈ l ->
  filter (λ kv : string * N, kv.1 = k) l = [(k, v)].
Proof.
  induction l as [|[k' v'] l IH]; intros Hnd Hin.
  - inversion Hin.
  - simpl in Hnd. apply NoDup_cons in Hnd as [Hk' Hnd].
    apply elem_of_cons in Hin as [Heq | Hin].
    + inversion Heq; subst k' v'.
      rewrite filter_cons_True by reflexivity.
      f_equal. apply filter_key_absent, Hk'.
    + assert (k' ≠ k) as Hne.
      { intros ->. apply Hk'.
        apply list_elem_of_fmap. exists (k, v). split; [reflexivity|assumption]. }
      rewrite filter_cons_False by (simpl; assumption). auto.
Qed.

Lemma entries_of_key (m : gmap string N) (k : string) (v : N) :
  m !! k = Some v -> entries_for m k = [(k, v)].
Proof.
  intros Hm. apply filter_key_singleton.
  - apply NoDup_fst_map_to_list.
  - apply elem_of_map_to_list, Hm.
Qed.

Lemma real_ports_init : real_ports LearningSwitch13.init.
Proof. intros dpid table m p H. simpl in H. rewrite lookup_empty in H. discriminate. Qed.

(** Ingress ports being real ports, the handler keeps the table free of
    the reserved port. *)
Lemma real_ports_packet_in (self : LearningSwitch13.t) (ev : EventOFPPacketIn) :
  real_ports self -> ev_in_port ev ≠ OFPP_FLOOD ->
  real_ports (fst (_packet_in_handler self ev)).
Proof.
  intros Hwf Hport.
  destruct (ignored (pkt_eth (ev_pkt ev))) eqn:Hi.
  { unfold _packet_in_handler, _packet_in_outcome. rewrite Hi. exact Hwf. }
  intros dpid table m p Ht Hp.
  rewrite packet_in_state in Ht by assumption.
  destruct (decide (ev_dpid ev = dpid)) as [<-|Hne].
  - rewrite lookup_insert_eq in Ht. injection Ht as <-.
    unfold learned in Hp.
    destruct (decide (eth_src (pkt_eth (ev_pkt ev)) = m)) as [<-|Hm].
    + rewrite lookup_insert_eq in Hp. congruence.
    + rewrite lookup_insert_ne in Hp by assumption.
      destruct (mac_to_port self !! ev_dpid ev) as [old|] eqn:Hold; simpl in Hp.
      * eapply Hwf; eassumption.
      * rewrite lookup_empty in Hp. discriminate.
  - rewrite lookup_insert_ne in Ht by assumption. eapply Hwf; eassumption.
Qed.

(** What the handler sends for a destination it has a port for. *)
Lemma known_destination_outcome (self : LearningSwitch13.t)
    (ev : EventOFPPacketIn) (p : N) :
  ignored (pkt_eth (ev_pkt ev)) = false ->
  learned self ev !! eth_dst (pkt_eth (ev_pkt ev)) = Some p ->
  p ≠ OFPP_FLOOD ->
  snd (_packet_in_outcome self ev) = None
  ∧ snd (_packet_in_handler self ev)
    = [FlowMod {| fm_buffer_id := ev_buffer_id ev;
                  fm_priority := 1;
                  fm_match :=
                    [("eth_dst"%string, OXMStr (eth_dst (pkt_eth (ev_pkt ev))))];
                  fm_instructions :=
                    [OFPInstructionActions OFPIT_APPLY_ACTIONS [Output p]];
                  fm_idle_timeout := 0;
                  fm_hard_timeout := 0 |}].
Proof.
  intros Hi Hd Hp. unfold _packet_in_handler, _packet_in_outcome.
  rewrite Hi. fold (learned self ev). rewrite Hd.
  apply N.eqb_neq in Hp. rewrite Hp. simpl. split; [reflexivity|].
  unfold add_flow.
  destruct (N.eqb_spec (ev_buffer_id ev) OFP_NO_BUFFER) as [->|Hb];
    reflexivity.
Qed.

(** What the handler does for a destination it has no port for. *)
Lemma unknown_destination_outcome (self : LearningSwitch13.t)
    (ev : EventOFPPacketIn) :
  ignored (pkt_eth (ev_pkt ev)) = false ->
  learned self ev !! eth_dst (pkt_eth (ev_pkt ev)) = None ->
  _packet_in_outcome self ev
  = if ev_buffer_id ev =? OFP_NO_BUFFER
    then ({| mac_to_port := <[ev_dpid ev := learned self ev]> (mac_to_port self) |},
          [PacketOut {| po_buffer_id := ev_buffer_id ev;
                        po_in_port := ev_in_port ev;
                        po_actions := [Output OFPP_FLOOD];
                        po_data := RawData (ev_data ev) |}],
          None)
    else ({| mac_to_port := <[ev_dpid ev := learned self ev]> (mac_to_port self) |},
          [], Some AssertionError).
Proof.
  intros Hi Hd. unfold _packet_in_outcome.
  rewrite Hi. fold (learned self ev). rewrite Hd.
  rewrite N.eqb_refl. simpl.
  destruct (ev_buffer_id ev =? OFP_NO_BUFFER); reflexivity.
Qed.

(** C6, as the handler has it. For a packet-in that is not ignored, the
    destination is looked up in the table of the switch after the source
    has been recorded. When it is there, the handler returns having sent
    one flow-mod and nothing else: priority 1, match on [eth_dst], no
    timeout, as its action list the unicast output to the learned port,
    and as its buffer the buffer of the packet-in; it sends no packet-out,
    so the frame of a packet-in without a buffer is not sent on. When the
    destination is not there and the packet-in has no buffer, the handler
    returns having sent one packet-out that floods the frame, and no
    flow-mod. *)
Theorem forward_or_flood (self : LearningSwitch13.t) (ev : EventOFPPacketIn) :
  real_ports self ->
  ev_in_port ev ≠ OFPP_FLOOD ->
  ignored (pkt_eth (ev_pkt ev)) = false ->
  let dst := eth_dst (pkt_eth (ev_pkt ev)) in
  let '(self', sent) := _packet_in_handler self ev in
  ∃ table, mac_to_port self' !! ev_dpid ev = Some table ∧
    match table !! dst with
    | Some p =>
        snd (_packet_in_outcome self ev) = None
        ∧ sent = [FlowMod {| fm_buffer_id := ev_buffer_id ev;
                             fm_priority := 1;
                             fm_match := [("eth_dst"%string, OXMStr dst)];
                             fm_instructions :=
                               [OFPInstructionActions OFPIT_APPLY_ACTIONS
                                  [Output p]];
                             fm_idle_timeout := 0;
                             fm_hard_timeout := 0 |}]
        ∧ List.filter is_PacketOut sent = []
    | None =>
        ev_buffer_id ev = OFP_NO_BUFFER ->
        snd (_packet_in_outcome self ev) = None
        ∧ sent = [PacketOut {| po_buffer_id := OFP_NO_BUFFER;
                               po_in_port := ev_in_port ev;
                               po_actions := [Output OFPP_FLOOD];
                               po_data := RawData (ev_data ev) |}]
        ∧ List.filter is_FlowMod sent = []
    end.
Proof.
  intros Hwf Hport Hi dst.
  pose proof (packet_in_table self ev Hi) as Ht.
  pose proof (real_ports_packet_in self ev Hwf Hport) as Hwf'.
  pose proof (known_destination_outcome self ev) as Hknown.
  pose proof (unknown_destination_outcome self ev Hi) as Hunknown.
  destruct (_packet_in_handler self ev) as [self' sent] eqn:Hh.
  simpl in Ht, Hwf', Hknown.
  exists (learned self ev). split; [exact Ht|]. fold dst in Hknown, Hunknown.
  destruct (learned self ev !! dst) as [p|] eqn:Hd.
  - assert (p ≠ OFPP_FLOOD) as Hp by (eapply Hwf'; eassumption).
    destruct (Hknown p Hi eq_refl Hp) as [Hret Hsent].
    split; [exact Hret|]. split; [exact Hsent|]. rewrite Hsent. reflexivity.
  - intros Hb. specialize (Hunknown eq_refl).
    unfold _packet_in_handler in Hh. rewrite Hunknown, Hb in *.
    simpl in *. injection Hh as _ <-. auto.
Qed.

(** C6, the frame that is not sent on: the host of [host_in] is known on
    port 1; a frame to it comes in without a buffer, and the handler sends
    a flow-mod that names no buffer and no packet-out, so nothing puts
    the frame on port 1. *)
Lemma known_destination_frame_not_sent :
  learned host_known reply_in !! eth_dst (pkt_eth (ev_pkt reply_in)) = Some 1
  ∧ ev_buffer_id reply_in = OFP_NO_BUFFER
  ∧ snd (_packet_in_handler host_known reply_in)
    = [FlowMod {| fm_buffer_id := OFP_NO_BUFFER;
                  fm_priority := 1;
                  fm_match := [("eth_dst"%string, OXMStr "00:00:00:00:00:aa")];
                  fm_instructions :=
                    [OFPInstructionActions OFPIT_APPLY_ACTIONS [Output 1]];
                  fm_idle_timeout := 0;
                  fm_hard_timeout := 0 |}]
  ∧ List.filter is_PacketOut (snd (_packet_in_handler host_known reply_in)) = [].
Proof. repeat split; vm_compute; reflexivity. Qed.

(** A packet-in with a buffer to a destination that is not known: the
    packet-out is refused, and nothing is flooded. *)
Lemma buffered_flood_refused (self : LearningSwitch13.t) (ev : EventOFPPacketIn) :
  ignored (pkt_eth (ev_pkt ev)) = false ->
  learned self ev !! eth_dst (pkt_eth (ev_pkt ev)) = None ->
  ev_buffer_id ev ≠ OFP_NO_BUFFER ->
  snd (_packet_in_outcome self ev) = Some AssertionError
  ∧ snd (_packet_in_handler self ev) = [].
Proof.
  intros Hi Hd Hb. unfold _packet_in_handler.
  rewrite (unknown_destination_outcome self ev Hi Hd).
  apply N.eqb_neq in Hb. rewrite Hb. auto.
Qed.

(** C7. One port per (dpid, MAC). After a packet-in that is not ignored,
    the table of the switch holds exactly one entry for the source
    address, with the ingress port. A second observation of the address
    on the same switch leaves again exactly one entry, with the port of
    the second observation: on the same port the state is unchanged, on
    another port the entry is overwritten, and the state is the one the
    second observation alone would have produced. *)
Theorem one_port_per_mac (self : LearningSwitch13.t) (ev ev' : EventOFPPacketIn) :
  ignored (pkt_eth (ev_pkt ev)) = false ->
  ignored (pkt_eth (ev_pkt ev')) = false ->
  ev_dpid ev' = ev_dpid ev ->
  eth_src (pkt_eth (ev_pkt ev')) = eth_src (pkt_eth (ev_pkt ev)) ->
  let src := eth_src (pkt_eth (ev_pkt ev)) in
  let self1 := fst (_packet_in_handler self ev) in
  let self2 := fst (_packet_in_handler self1 ev') in
  (∃ table, mac_to_port self1 !! ev_dpid ev = Some table
            ∧ entries_for table src = [(src, ev_in_port ev)])
  ∧ (∃ table, mac_to_port self2 !! ev_dpid ev = Some table
              ∧ entries_for table src = [(src, ev_in_port ev')])
  ∧ (ev_in_port ev' = ev_in_port ev -> self2 = self1)
  ∧ self2 = fst (_packet_in_handler self ev').
Proof.
  intros Hi Hi' Hd Hs src self1 self2.
  assert (self2 = fst (_packet_in_handler self ev')) as Hover.
  { apply state_eq. subst self2 self1.
    rewrite (packet_in_state _ ev') by assumption.
    rewrite (packet_in_state _ ev') by assumption.
    rewrite (packet_in_state _ ev) by assumption.
    unfold learned at 1. rewrite Hd, Hs.
    rewrite (packet_in_table _ ev) by assumption. simpl.
    rewrite insert_insert_eq. f_equal.
    unfold learned. rewrite Hs, Hd. apply insert_insert_eq. }
  split; [|split; [|split]].
  - exists (learned self ev). split.
    + apply packet_in_table, Hi.
    + apply entries_of_key. apply lookup_insert_eq.
  - exists (learned self ev'). split.
    + rewrite Hover, <- Hd. apply packet_in_table, Hi'.
    + apply entries_of_key. unfold learned. rewrite Hs. apply lookup_insert_eq.
  - intros Hp. rewrite Hover. apply state_eq. subst self1.
    rewrite !packet_in_state by assumption.
    unfold learned. rewrite Hs, Hd, Hp. reflexivity.
  - exact Hover.
Qed.

(** C8, as the handler has it. A packet-in whose frame is LLDP by its
    type, or whose destination starts with [33:33:], changes nothing
    and sends nothing. *)
Theorem lldp_and_ipv6_multicast_ignored
    (self : LearningSwitch13.t) (ev : EventOFPPacketIn) :
  ethertype (pkt_eth (ev_pkt ev)) = ether_types.ETH_TYPE_LLDP
  ∨ String.prefix "33:33:" (eth_dst (pkt_eth (ev_pkt ev))) = true ->
  _packet_in_handler self ev = (self, []).
Proof.
  intros H. unfold _packet_in_handler, _packet_in_outcome.
  replace (ignored (pkt_eth (ev_pkt ev))) with true; [reflexivity|].
  unfold ignored. destruct H as [-> | ->].
  - reflexivity.
  - symmetry. apply orb_true_r.
Qed.

(** C8, the case the handler does not have: a frame to an address of
    the [01:80:c2:] range that is not LLDP is learned and flooded. *)
Lemma reserved_multicast_learned_and_flooded :
  String.prefix "01:80:c2:" (eth_dst (pkt_eth (ev_pkt bpdu_in))) = true
  ∧ ethertype (pkt_eth (ev_pkt bpdu_in)) ≠ ether_types.ETH_TYPE_LLDP
  ∧ (mac_to_port (fst (_packet_in_handler LearningSwitch13.init bpdu_in)) !! 1)
      ≫= (λ table : gmap string N, table !! "00:00:00:00:00:01"%string) = Some 3
  ∧ snd (_packet_in_handler LearningSwitch13.init bpdu_in)
    = [PacketOut {| po_buffer_id := OFP_NO_BUFFER;
                    po_in_port := 3;
                    po_actions := [Output OFPP_FLOOD];
                    po_data := RawData [] |}].
Proof.
  split; [reflexivity|]. split; [discriminate|].
  split; vm_compute; reflexivity.
Qed.
End LearningSwitchFacts.

(** ** The load balancer *)

Section LoadBalancerFacts.
Import ofproto_v1_3 SimpleLoadBalancer.
Local Open Scope nat_scope.

Lemma choose_server_in_range (self : SimpleLoadBalancer.t) :
  pointer_in_range self ->
  ∃ srv, SERVER_POOL self !! rr_index self = Some srv
    ∧ _choose_server self
      = Some (rr_index self, srv,
              {| rr_index := (rr_index self + 1) mod length (SERVER_POOL self);
                 ip2mac := ip2mac self;
                 SERVER_POOL := SERVER_POOL self |}).
Proof.
  intros Hr. destruct (lookup_lt_is_Some_2 _ _ Hr) as [srv Hsrv].
  exists srv. split; [assumption|].
  unfold _choose_server. rewrite Hsrv. reflexivity.
Qed.

Lemma nat_to_server_frame (self : SimpleLoadBalancer.t) (ev : EventOFPPacketIn)
    (h : ipv4) (i : nat) (srv : server) :
  let self' := state_of (nat_to_server self ev h i srv) in
  rr_index self' = rr_index self
  ∧ ip2mac self' = ip2mac self
  ∧ length (SERVER_POOL self') = length (SERVER_POOL self).
Proof.
  unfold nat_to_server, send_packet_out.
  repeat match goal with
         | |- context [if ?b then _ else _] => destruct b
         end;
    simpl; rewrite ?length_insert; auto.
Qed.

(** What the handler has recorded in the cache when it returns or
    raises. *)
Lemma learn_then_intercept (self : SimpleLoadBalancer.t) (ev : EventOFPPacketIn) :
  vip_arp_request ev = false ->
  packet_in_traced self ev
  = intercept {| rr_index := rr_index self;
                 ip2mac := observed self ev;
                 SERVER_POOL := SERVER_POOL self |} ev.
Proof.
  intros Ha. unfold packet_in_traced, observed, vip_arp_request in *.
  destruct self as [r c pool]. simpl.
  destruct (pkt_ipv4 (ev_pkt ev)) as [h|];
    [destruct (truthy (eth_src (pkt_eth (ev_pkt ev))))|];
    destruct (pkt_arp (ev_pkt ev)) as [a|];
    try rewrite Ha; reflexivity.
Qed.

Lemma arp_request_answered (self : SimpleLoadBalancer.t) (ev : EventOFPPacketIn) :
  vip_arp_request ev = true ->
  snd (packet_in_traced self ev) = None
  ∧ rr_index (state_of (packet_in self ev)) = rr_index self
  ∧ SERVER_POOL (state_of (packet_in self ev)) = SERVER_POOL self.
Proof.
  intros Ha. unfold packet_in, packet_in_traced, vip_arp_request in *.
  destruct (pkt_arp (ev_pkt ev)) as [a|]; [|discriminate].
  rewrite Ha. simpl.
  destruct (pkt_ipv4 (ev_pkt ev)) as [h|];
    [destruct (truthy (eth_src (pkt_eth (ev_pkt ev))))|]; auto.
Qed.

(** A packet-in that leads to no decision leaves pointer and pool. *)
Lemma no_decision_step (self : SimpleLoadBalancer.t) (ev : EventOFPPacketIn) :
  vip_decision ev = false ->
  snd (packet_in_traced self ev) = None
  ∧ rr_index (state_of (packet_in self ev)) = rr_index self
  ∧ SERVER_POOL (state_of (packet_in self ev)) = SERVER_POOL self.
Proof.
  intros Hd. destruct (vip_arp_request ev) eqn:Ha.
  { apply arp_request_answered, Ha. }
  unfold packet_in. rewrite learn_then_intercept by assumption.
  unfold vip_decision in Hd. rewrite Ha, andb_true_r in Hd.
  unfold to_vip in Hd. unfold intercept.
  destruct (pkt_ipv4 (ev_pkt ev)) as [h|]; [rewrite Hd|]; auto.
Qed.

(** A packet-in that leads to a decision hands out the position the
    pointer is on and moves the pointer by one, modulo the pool size. *)
Lemma decision_step (self : SimpleLoadBalancer.t) (ev : EventOFPPacketIn) :
  pointer_in_range self ->
  vip_decision ev = true ->
  snd (packet_in_traced self ev) = Some (rr_index self)
  ∧ rr_index (state_of (packet_in self ev))
    = (rr_index self + 1) mod length (SERVER_POOL self)
  ∧ length (SERVER_POOL (state_of (packet_in self ev)))
    = length (SERVER_POOL self).
Proof.
  intros Hr Hd. unfold vip_decision in Hd.
  apply andb_true_iff in Hd as [Hv Ha]. apply negb_true_iff in Ha.
  unfold packet_in. rewrite learn_then_intercept by assumption.
  unfold to_vip in Hv. unfold intercept.
  destruct (pkt_ipv4 (ev_pkt ev)) as [h|]; [|discriminate]. rewrite Hv.
  set (s := {| rr_index := rr_index self; ip2mac := observed self ev;
               SERVER_POOL := SERVER_POOL self |}).
  destruct (choose_server_in_range s Hr) as (srv & _ & ->). simpl.
  match goal with |- context [nat_to_server ?s' ev h ?i srv] =>
    destruct (nat_to_server_frame s' ev h i srv) as (H1 & _ & H3) end.
  simpl in H1, H3. auto.
Qed.

Lemma packet_in_keeps_range (self : SimpleLoadBalancer.t) (ev : EventOFPPacketIn) :
  pointer_in_range self ->
  pointer_in_range (state_of (packet_in self ev))
  ∧ length (SERVER_POOL (state_of (packet_in self ev)))
    = length (SERVER_POOL self).
Proof.
  intros Hr. unfold pointer_in_range in *.
  destruct (vip_decision ev) eqn:Hd.
  - destruct (decision_step self ev Hr Hd) as (_ & -> & ->).
    split; [|reflexivity]. apply Nat.mod_upper_bound. lia.
  - destruct (no_decision_step self ev Hd) as (_ & -> & ->). auto.
Qed.

(** *** Counting in a rotation *)






(** *** The handler over a stream of events *)

Lemma run_traced_rotation (self : SimpleLoadBalancer.t)
    (evs : list EventOFPPacketIn) :
  pointer_in_range self ->
  let n := length (SERVER_POOL self) in
  let K := length (List.filter vip_decision evs) in
  snd (run_traced self evs) = rotation n (rr_index self) K
  ∧ rr_index (run self evs) = (rr_index self + K) mod n
  ∧ length (SERVER_POOL (run self evs)) = n.
Proof.
  unfold run. revert self.
  induction evs as [|ev evs IH]; intros self Hr; simpl.
  - rewrite Nat.add_0_r, Nat.mod_small by exact Hr. auto.
  - pose proof (packet_in_keeps_range self ev Hr) as [Hr' Hlen].
    specialize (IH (state_of (packet_in self ev)) Hr').
    unfold packet_in in *.
    destruct (packet_in_traced self ev) as [o sel] eqn:Ho. simpl in *.
    destruct (run_traced (state_of o) evs) as [self' sels] eqn:Hrun.
    simpl in *. destruct IH as (IH1 & IH2 & IH3).
    rewrite Hlen in IH1, IH2, IH3.
    destruct (vip_decision ev) eqn:Hd; simpl.
    + destruct (decision_step self ev Hr Hd) as (Hsel & Hrr & _).
      unfold packet_in in *. rewrite Ho in Hsel, Hrr. simpl in Hsel, Hrr.
      subst sel. rewrite Hrr in IH1, IH2. subst sels.
      split; [reflexivity|]. split; [|assumption].
      rewrite IH2, Nat.Div0.add_mod_idemp_l. f_equal. lia.
    + destruct (no_decision_step self ev Hd) as (Hsel & Hrr & _).
      unfold packet_in in *. rewrite Ho in Hsel, Hrr. simpl in Hsel, Hrr.
      subst sel. rewrite Hrr in IH1, IH2. auto.
Qed.


(** C9. Over a pool that is not empty, the pointer starts at 0, a
    position of the pool; the handler takes a state whose pointer is a
    position of the pool to such a state, whatever the packet-in and
    whether it returns or raises; so the pointer is a position of the
    pool after any stream of events. *)
Theorem rr_index_in_pool (pool : list server) :
  pool ≠ [] ->
  rr_index (init_with pool) = 0
  ∧ pointer_in_range (init_with pool)
  ∧ (∀ self ev, pointer_in_range self ->
       pointer_in_range (state_of (packet_in self ev)))
  ∧ (∀ evs, pointer_in_range (run (init_with pool) evs)
            ∧ length (SERVER_POOL (run (init_with pool) evs)) = length pool).
Proof.
  intros Hne.
  assert (pointer_in_range (init_with pool)) as H0.
  { unfold pointer_in_range. simpl. destruct pool; [congruence|simpl; lia]. }
  split; [reflexivity|]. split; [exact H0|]. split.
  - intros self ev Hr. apply packet_in_keeps_range, Hr.
  - intros evs.
    destruct (run_traced_rotation (init_with pool) evs H0) as (_ & Hrr & Hlen).
    split; [|exact Hlen].
    unfold pointer_in_range. rewrite Hrr, Hlen. simpl.
    apply Nat.mod_upper_bound. destruct pool; [congruence|simpl; lia].
Qed.

(** *** One decision *)

Lemma decision_unfolded (self : SimpleLoadBalancer.t) (ev : EventOFPPacketIn)
    (h : ipv4) (srv : server) :
  pkt_ipv4 (ev_pkt ev) = Some h ->
  vip_decision ev = true ->
  SERVER_POOL self !! rr_index self = Some srv ->
  packet_in_traced self ev
  = (nat_to_server
       {| rr_index := (rr_index self + 1) mod length (SERVER_POOL self);
          ip2mac := observed self ev;
          SERVER_POOL := SERVER_POOL self |} ev h (rr_index self) srv,
     Some (rr_index self)).
Proof.
  intros Hh Hd Hsrv. unfold vip_decision in Hd.
  apply andb_true_iff in Hd as [Hv Ha]. apply negb_true_iff in Ha.
  rewrite learn_then_intercept by assumption.
  unfold to_vip in Hv. rewrite Hh in Hv.
  unfold intercept, _choose_server. simpl. rewrite Hh, Hv, Hsrv. reflexivity.
Qed.

(** What a decision for the backend under the pointer comes to. *)
Lemma decision_outcome (self : SimpleLoadBalancer.t) (ev : EventOFPPacketIn)
    (h : ipv4) (srv : server) :
  pkt_ipv4 (ev_pkt ev) = Some h ->
  vip_decision ev = true ->
  SERVER_POOL self !! rr_index self = Some srv ->
  packet_in self ev
  = if negb (truthy_opt (resolved_mac self ev srv))
    then send_packet_out (decided self ev srv) []
           {| po_buffer_id := ev_buffer_id ev;
              po_in_port := ev_in_port ev;
              po_actions := [Output OFPP_FLOOD];
              po_data := RawData (ev_data ev) |}
    else if negb (ipv4_text_ok (ip srv))
    then Raised AddrFormatError (decided self ev srv) []
    else send_packet_out (decided self ev srv)
           [FlowMod (forward_rule srv (default ""%string (resolved_mac self ev srv)));
            FlowMod (reverse_rule srv ev h)]
           (rewritten_packet srv (default ""%string (resolved_mac self ev srv)) ev).
Proof.
  intros Hh Hd Hsrv. unfold packet_in.
  rewrite (decision_unfolded self ev h srv) by assumption.
  simpl. unfold nat_to_server, decided, set_server_mac. unfold resolved_mac.
  simpl. destruct (truthy_opt (mac srv)) eqn:Hmac; simpl; rewrite ?Hmac;
    reflexivity.
Qed.

(** C2. An IPv4 packet to the VIP that comes in without a buffer, whose
    backend, the server under the pointer, has a MAC (in the pool or in
    the address cache) and an IP address the serialiser takes: the
    handler returns having sent, in this order, the forward rule, the
    reverse rule and one packet-out, and nothing else. Both rules have
    priority 10 and idle timeout 30. The forward rule matches IPv4 to
    the VIP, sets the destination IP and MAC to the backend's and
    outputs to [OFPP_NORMAL]; the reverse rule matches IPv4 from the
    backend to the client, sets the source IP and MAC to the VIP's and
    outputs to the ingress port of the packet-in; the packet-out sends
    the bytes of the packet-in with the rewrite of the forward rule, to
    [OFPP_FLOOD]. *)
Theorem vip_nat_installed (self : SimpleLoadBalancer.t) (ev : EventOFPPacketIn)
    (h : ipv4) (srv : server) (server_mac : string) :
  pkt_ipv4 (ev_pkt ev) = Some h ->
  vip_decision ev = true ->
  ev_buffer_id ev = OFP_NO_BUFFER ->
  SERVER_POOL self !! rr_index self = Some srv ->
  ipv4_text_ok (ip srv) = true ->
  resolved_mac self ev srv = Some server_mac ->
  truthy server_mac = true ->
  let forward :=
    {| fm_buffer_id := OFP_NO_BUFFER;
       fm_priority := 10;
       fm_match := [("eth_type"%string, OXMInt 0x0800);
                    ("ipv4_dst"%string, OXMStr VIP_IP)];
       fm_instructions :=
         [OFPInstructionActions OFPIT_APPLY_ACTIONS
            [OFPActionSetField "ipv4_dst" (ip srv);
             OFPActionSetField "eth_dst" server_mac;
             Output OFPP_NORMAL]];
       fm_idle_timeout := 30;
       fm_hard_timeout := 0 |} in
  let reverse :=
    {| fm_buffer_id := OFP_NO_BUFFER;
       fm_priority := 10;
       fm_match := [("eth_type"%string, OXMInt 0x0800);
                    ("ipv4_src"%string, OXMStr (ip srv));
                    ("ipv4_dst"%string, OXMStr (ipv4_src h))];
       fm_instructions :=
         [OFPInstructionActions OFPIT_APPLY_ACTIONS
            [OFPActionSetField "ipv4_src" VIP_IP;
             OFPActionSetField "eth_src" VIP_MAC;
             Output (ev_in_port ev)]];
       fm_idle_timeout := 30;
       fm_hard_timeout := 0 |} in
  let now :=
    {| po_buffer_id := OFP_NO_BUFFER;
       po_in_port := ev_in_port ev;
       po_actions := [OFPActionSetField "ipv4_dst" (ip srv);
                      OFPActionSetField "eth_dst" server_mac;
                      Output OFPP_FLOOD];
       po_data := RawData (ev_data ev) |} in
  ∃ self', packet_in self ev
           = Returned self' [FlowMod forward; FlowMod reverse; PacketOut now]
    ∧ length (List.filter is_FlowMod (sent_of (packet_in self ev))) = 2.
Proof.
  intros Hh Hd Hb Hsrv Hip Hm Ht forward reverse now.
  rewrite (decision_outcome self ev h srv) by assumption.
  rewrite Hm. simpl. rewrite Ht, Hip. simpl.
  unfold send_packet_out, rewritten_packet. simpl. rewrite Hb. simpl.
  eexists. split; reflexivity.
Qed.

(** The two ways the translation stops short. A backend whose IP address
    the serialiser refuses: the first send raises, and nothing is sent.
    A packet-in with a buffer: the two rules are sent, the packet-out is
    refused, and the packet is not sent on. *)
Lemma translation_refused (self : SimpleLoadBalancer.t) (ev : EventOFPPacketIn)
    (h : ipv4) (srv : server) (server_mac : string) :
  pkt_ipv4 (ev_pkt ev) = Some h ->
  vip_decision ev = true ->
  SERVER_POOL self !! rr_index self = Some srv ->
  resolved_mac self ev srv = Some server_mac ->
  truthy server_mac = true ->
  (ipv4_text_ok (ip srv) = false ->
   packet_in self ev = Raised AddrFormatError (decided self ev srv) [])
  ∧ (ipv4_text_ok (ip srv) = true -> ev_buffer_id ev ≠ OFP_NO_BUFFER ->
     packet_in self ev
     = Raised AssertionError (decided self ev srv)
         [FlowMod (forward_rule srv server_mac);
          FlowMod (reverse_rule srv ev h)]).
Proof.
  intros Hh Hd Hsrv Hm Ht.
  rewrite (decision_outcome self ev h srv) by assumption.
  rewrite Hm. simpl. rewrite Ht. simpl. split.
  - intros ->. reflexivity.
  - intros -> Hb. simpl. unfold send_packet_out, rewritten_packet. simpl.
    apply N.eqb_neq in Hb. rewrite Hb. reflexivity.
Qed.

(** C10. An IPv4 packet to the VIP whose backend, the server under the
    pointer, has no MAC in the pool nor in the address cache: the handler
    installs no rule, and the pointer has moved by one all the same, so
    that the decision for the next packet to the VIP hands out the
    position after the one of the failed decision. For a packet-in
    without a buffer the handler returns having sent one packet-out that
    floods the packet unchanged. *)
Theorem unresolved_backend_consumes_slot
    (self : SimpleLoadBalancer.t) (ev ev' : EventOFPPacketIn)
    (h : ipv4) (srv : server) :
  pkt_ipv4 (ev_pkt ev) = Some h ->
  vip_decision ev = true ->
  vip_decision ev' = true ->
  SERVER_POOL self !! rr_index self = Some srv ->
  truthy_opt (resolved_mac self ev srv) = false ->
  let n := length (SERVER_POOL self) in
  let self' := state_of (packet_in self ev) in
  snd (packet_in_traced self ev) = Some (rr_index self)
  ∧ List.filter is_FlowMod (sent_of (packet_in self ev)) = []
  ∧ rr_index self' = (rr_index self + 1) mod n
  ∧ snd (packet_in_traced self' ev') = Some ((rr_index self + 1) mod n)
  ∧ (ev_buffer_id ev = OFP_NO_BUFFER ->
     packet_in self ev = Returned self' [flood_unchanged ev]).
Proof.
  intros Hh Hd Hd' Hsrv Hm n self'.
  assert (pointer_in_range self) as Hr
    by (eapply lookup_lt_Some; eassumption).
  destruct (decision_step self ev Hr Hd) as (Hsel & Hrr & Hlen).
  destruct (packet_in_keeps_range self ev Hr) as [Hr' _].
  destruct (decision_step self' ev' Hr' Hd') as (Hsel' & _).
  split; [exact Hsel|]. split.
  { rewrite (decision_outcome self ev h srv) by assumption.
    rewrite Hm. simpl. unfold send_packet_out. simpl.
    destruct (N.eqb (ev_buffer_id ev) OFP_NO_BUFFER); reflexivity. }
  split; [exact Hrr|]. split; [rewrite Hsel'; f_equal; exact Hrr|].
  intros Hb. subst self'.
  rewrite (decision_outcome self ev h srv) by assumption.
  rewrite Hm. simpl. unfold send_packet_out, flood_unchanged. simpl.
  rewrite Hb. reflexivity.
Qed.
End LoadBalancerFacts.

(** ** The firewall *)

Section FirewallFacts.
Import ofproto_v1_3 SimpleFirewall.
Context {match_kwargs : Type}.
Variable parser_OFPMatch : match_kwargs -> option OFPMatch.
Variable send_msg_ok : nat -> bool.

Lemma install_rule_logged (dpid : N) (i : nat) (kw : match_kwargs) :
  snd (install_rule match_kwargs parser_OFPMatch send_msg_ok dpid i kw)
  = logged parser_OFPMatch send_msg_ok dpid i kw.
Proof.
  unfold install_rule, logged.
  destruct (parser_OFPMatch kw); [destruct (send_msg_ok i)|]; reflexivity.
Qed.

Lemma install_rule_sent (dpid : N) (i : nat) (kw : match_kwargs) :
  fst (install_rule match_kwargs parser_OFPMatch send_msg_ok dpid i kw)
  = option_list
      (installed_mod parser_OFPMatch
         (logged parser_OFPMatch send_msg_ok dpid i kw)).
Proof.
  unfold install_rule, logged.
  destruct (parser_OFPMatch kw) as [mtch|] eqn:Hm;
    [destruct (send_msg_ok i)|]; simpl; rewrite ?Hm; reflexivity.
Qed.

(** The loop from iteration [i] on. *)
Lemma install_rules_spec (dpid : N) (rules : list match_kwargs) (i : nat) :
  let sent := fst (install_rules match_kwargs parser_OFPMatch send_msg_ok dpid i rules) in
  let log := snd (install_rules match_kwargs parser_OFPMatch send_msg_ok dpid i rules) in
  length log = length rules
  ∧ (∀ k kw, rules !! k = Some kw ->
       log !! k = Some (logged parser_OFPMatch send_msg_ok dpid (i + k) kw))
  ∧ sent = omap (installed_mod parser_OFPMatch) log.
Proof.
  revert i. induction rules as [|kw rules IH]; intros i; simpl.
  - split; [reflexivity|]. split; [|reflexivity].
    intros k kw' H. rewrite lookup_nil in H. discriminate.
  - specialize (IH (S i)).
    pose proof (install_rule_logged dpid i kw) as Hl.
    pose proof (install_rule_sent dpid i kw) as Hs.
    destruct (install_rule _ _ _ dpid i kw) as [sent1 line] eqn:H1.
    destruct (install_rules _ _ _ dpid (S i) rules) as [sent2 lines] eqn:H2.
    simpl in *. destruct IH as (IHlen & IHlog & IHsent). subst line sent1.
    split; [congruence|]. split.
    + intros [|k] kw' Hk; simpl in *.
      * injection Hk as <-. rewrite Nat.add_0_r. reflexivity.
      * rewrite (IHlog k kw' Hk). do 2 f_equal. lia.
    + rewrite IHsent.
      destruct (installed_mod _ _); reflexivity.
Qed.

Lemma installed_mod_drop_rule (line : log_record match_kwargs) (m : OFPMsg) :
  installed_mod parser_OFPMatch line = Some m ->
  ∃ kw mtch, parser_OFPMatch kw = Some mtch ∧ m = drop_rule_for mtch.
Proof.
  destruct line as [i d kw|kw d e]; simpl; [|discriminate].
  destruct (parser_OFPMatch kw) as [mtch|] eqn:Hm; [|discriminate].
  intros [= <-]. exists kw, mtch. split; [assumption|reflexivity].
Qed.

(** C4. On the switch-features event the loop logs one line per rule of
    the rule set, in order: installed, or failed when the match
    constructor or the write raised. What is sent is, in order, the
    flow-mods of the rules logged as installed, so a rule that fails
    takes nothing away from the others: the flow-mod of every rule whose
    match builds and whose write succeeds is sent. Every message sent is
    a flow-mod of priority 100 whose only instruction clears the actions
    with an empty action list. *)
Theorem drop_rules_installed (self : SimpleFirewall.t match_kwargs) (dpid : N) :
  let sent := fst (switch_features_handler match_kwargs parser_OFPMatch send_msg_ok self dpid) in
  let log := snd (switch_features_handler match_kwargs parser_OFPMatch send_msg_ok self dpid) in
  length log = length (drop_rules self)
  ∧ (∀ k kw, drop_rules self !! k = Some kw ->
       log !! k = Some (logged parser_OFPMatch send_msg_ok dpid (S k) kw)
       ∧ (∀ mtch, parser_OFPMatch kw = Some mtch ->
            send_msg_ok (S k) = true -> drop_rule_for mtch ∈ sent))
  ∧ sent = omap (installed_mod parser_OFPMatch) log
  ∧ Forall (λ m, ∃ kw mtch, kw ∈ drop_rules self
                            ∧ parser_OFPMatch kw = Some mtch
                            ∧ m = drop_rule_for mtch) sent.
Proof.
  intros sent log. subst sent log. unfold switch_features_handler.
  destruct (install_rules_spec dpid (drop_rules self) 1) as (Hlen & Hlog & Hsent).
  split; [exact Hlen|]. split; [|split; [exact Hsent|]].
  - intros k kw Hk. specialize (Hlog k kw Hk). simpl in Hlog.
    split; [exact Hlog|]. intros mtch Hm Hok.
    rewrite Hsent. apply list_elem_of_omap.
    eexists. split; [eapply list_elem_of_lookup_2; exact Hlog|].
    unfold logged. rewrite Hm, Hok. simpl. rewrite Hm. reflexivity.
  - rewrite Hsent. apply Forall_forall. intros m Hm.
    apply list_elem_of_omap in Hm as (line & Hline & Hmod).
    apply list_elem_of_lookup in Hline as [k Hk].
    assert (k < length (drop_rules self))%nat as Hlt
      by (rewrite <- Hlen; eapply lookup_lt_Some; eassumption).
    destruct (lookup_lt_is_Some_2 _ _ Hlt) as [kw Hkw].
    rewrite (Hlog k kw Hkw) in Hk. injection Hk as <-.
    unfold logged in Hmod.
    destruct (parser_OFPMatch kw) as [mtch|] eqn:Hp; [|discriminate].
    match type of Hmod with context [send_msg_ok ?i] =>
      destruct (send_msg_ok i) end; [|discriminate].
    simpl in Hmod. rewrite Hp in Hmod. injection Hmod as <-.
    exists kw, mtch. split; [|split; [assumption|reflexivity]].
    eapply list_elem_of_lookup_2; eassumption.
Qed.
End FirewallFacts.

(** ** The telemetry *)

Section TelemetryFacts.
Import ofproto_v1_3 Telemetry13.

Lemma port_stat_row_port (now : float) (dpid : N) (prev : gmap N sample)
    (stat : OFPPortStats) (r : row) :
  snd (port_stat now dpid prev stat) = Some r -> r_port r = port_no stat.
Proof.
  unfold port_stat. destruct (OFPP_MAX <=? port_no stat); [discriminate|].
  destruct (match prev !! port_no stat with
            | Some s => rates now s stat
            | None => _ end) as [[[a b] c] d].
  simpl. intros [= <-]. reflexivity.
Qed.

(** The row of a port depends on the table through the sample of that
    port alone. *)
Lemma port_stat_row_local (now : float) (dpid : N) (prev prev' : gmap N sample)
    (stat : OFPPortStats) :
  prev !! port_no stat = prev' !! port_no stat ->
  snd (port_stat now dpid prev stat) = snd (port_stat now dpid prev' stat).
Proof.
  intros H. unfold port_stat. rewrite H.
  destruct (OFPP_MAX <=? port_no stat); [reflexivity|].
  destruct (match prev' !! port_no stat with
            | Some s => rates now s stat
            | None => _ end) as [[[a b] c] d].
  reflexivity.
Qed.

Lemma port_stat_other (now : float) (dpid : N) (prev : gmap N sample)
    (stat : OFPPortStats) (p : N) :
  p ≠ port_no stat ->
  fst (port_stat now dpid prev stat) !! p = prev !! p.
Proof.
  intros Hp. unfold port_stat.
  destruct (OFPP_MAX <=? port_no stat); [reflexivity|].
  destruct (match prev !! port_no stat with
            | Some s => rates now s stat
            | None => _ end) as [[[a b] c] d].
  simpl. apply lookup_insert_ne. congruence.
Qed.

Lemma port_stat_stored (now : float) (dpid : N) (prev : gmap N sample)
    (stat : OFPPortStats) :
  port_no stat < OFPP_MAX ->
  fst (port_stat now dpid prev stat) !! port_no stat
  = Some (sample_of now stat).
Proof.
  intros Hp. unfold port_stat.
  destruct (N.leb_spec OFPP_MAX (port_no stat)) as [Hle|_]; [lia|].
  destruct (match prev !! port_no stat with
            | Some s => rates now s stat
            | None => _ end) as [[[a b] c] d].
  simpl. apply lookup_insert_eq.
Qed.

Lemma port_stats_other (now : float) (dpid : N) (stats : list OFPPortStats)
    (prev : gmap N sample) (p : N) :
  p ∉ port_no <$> stats ->
  fst (port_stats now dpid prev stats) !! p = prev !! p.
Proof.
  revert prev. induction stats as [|stat stats IH]; intros prev Hp; [reflexivity|].
  rewrite fmap_cons in Hp. apply not_elem_of_cons in Hp as [Hne Hp].
  simpl.
  pose proof (port_stat_other now dpid prev stat p Hne) as H1.
  destruct (port_stat now dpid prev stat) as [prev1 r].
  specialize (IH prev1 Hp).
  destruct (port_stats now dpid prev1 stats) as [prev2 rows].
  simpl in *. congruence.
Qed.

(** Over a reply that lists a port once, the rows are the rows of the
    ports taken one by one against the table as it was before. *)
Lemma port_stats_rows (now : float) (dpid : N) (stats : list OFPPortStats)
    (prev : gmap N sample) :
  NoDup (port_no <$> stats) ->
  snd (port_stats now dpid prev stats)
  = omap (λ stat, snd (port_stat now dpid prev stat)) stats.
Proof.
  revert prev. induction stats as [|stat stats IH]; intros prev Hnd; [reflexivity|].
  rewrite fmap_cons in Hnd. apply NoDup_cons in Hnd as [Hfresh Hnd].
  simpl.
  pose proof (λ p, port_stat_other now dpid prev stat p) as H1.
  destruct (port_stat now dpid prev stat) as [prev1 r].
  specialize (IH prev1 Hnd).
  destruct (port_stats now dpid prev1 stats) as [prev2 rows].
  simpl in *. subst rows.
  assert (omap (λ st, snd (port_stat now dpid prev1 st)) stats
          = omap (λ st, snd (port_stat now dpid prev st)) stats) as ->.
  { apply list_omap_ext. apply Forall2_same_length_lookup_2; [reflexivity|].
    intros i x y Hx Hy. rewrite Hx in Hy. injection Hy as <-.
    apply port_stat_row_local. apply H1. intros Heq. apply Hfresh.
    rewrite <- Heq. apply list_elem_of_fmap. exists x.
    split; [reflexivity|]. eapply list_elem_of_lookup_2; eassumption. }
  destruct r; reflexivity.
Qed.

Lemma port_stats_stored (now : float) (dpid : N) (stats : list OFPPortStats)
    (prev : gmap N sample) (stat : OFPPortStats) :
  NoDup (port_no <$> stats) -> stat ∈ stats -> port_no stat < OFPP_MAX ->
  fst (port_stats now dpid prev stats) !! port_no stat
  = Some (sample_of now stat).
Proof.
  revert prev. induction stats as [|st stats IH]; intros prev Hnd Hin Hp.
  { inversion Hin. }
  rewrite fmap_cons in Hnd. apply NoDup_cons in Hnd as [Hfresh Hnd].
  simpl.
  pose proof (port_stat_stored now dpid prev st) as H1.
  pose proof (port_stat_other now dpid prev st (port_no stat)) as H2.
  destruct (port_stat now dpid prev st) as [prev1 r].
  pose proof (port_stats_other now dpid stats prev1 (port_no st) Hfresh) as H3.
  specialize (IH prev1 Hnd).
  destruct (port_stats now dpid prev1 stats) as [prev2 rows].
  simpl in *.
  apply elem_of_cons in Hin as [->|Hin].
  - rewrite H3. apply H1, Hp.
  - apply IH; assumption.
Qed.

Lemma rows_for_absent (f : OFPPortStats -> option row)
    (stats : list OFPPortStats) (p : N) :
  (∀ st r, f st = Some r -> r_port r = port_no st) ->
  p ∉ port_no <$> stats ->
  rows_for p (omap f stats) = [].
Proof.
  intros Hf. induction stats as [|st stats IH]; intros Hp; [reflexivity|].
  rewrite fmap_cons in Hp. apply not_elem_of_cons in Hp as [Hne Hp].
  simpl. destruct (f st) as [r|] eqn:Hr; [|auto].
  unfold rows_for in *. simpl.
  rewrite (Hf st r Hr). apply N.eqb_neq in Hne.
  rewrite N.eqb_sym, Hne. auto.
Qed.

Lemma rows_for_present (f : OFPPortStats -> option row)
    (stats : list OFPPortStats) (stat : OFPPortStats) (r : row) :
  (∀ st r, f st = Some r -> r_port r = port_no st) ->
  NoDup (port_no <$> stats) -> stat ∈ stats -> f stat = Some r ->
  rows_for (port_no stat) (omap f stats) = [r].
Proof.
  intros Hf. induction stats as [|st stats IH]; intros Hnd Hin Hr.
  { inversion Hin. }
  rewrite fmap_cons in Hnd. apply NoDup_cons in Hnd as [Hfresh Hnd].
  apply elem_of_cons in Hin as [<-|Hin].
  - simpl. rewrite Hr. unfold rows_for. simpl.
    rewrite (Hf stat r Hr), N.eqb_refl. f_equal.
    apply (rows_for_absent f stats (port_no stat) Hf Hfresh).
  - assert (port_no st ≠ port_no stat) as Hne.
    { intros Heq. apply Hfresh. rewrite Heq.
      apply list_elem_of_fmap. exists stat. auto. }
    simpl. destruct (f st) as [r'|] eqn:Hr'; [|auto].
    unfold rows_for in *. simpl.
    rewrite (Hf st r' Hr'). apply N.eqb_neq in Hne. rewrite Hne. auto.
Qed.

(** C3, as the handler has it. For a port below [OFPP_MAX] that the reply
    lists once, the handler writes exactly one row and keeps the counters
    of the reply, with the time of the reply, as the sample of the port.
    With a previous sample (counters [b0] at [t0]) the rates of the row
    are, in binary64 arithmetic and rounded to two decimals, bps =
    8 * (b1 - b0) / dt and pps = (p1 - p0) / dt, where dt is the time since
    [t0], or [1e-9] when that is not more than [1e-9]. Without a previous
    sample the row is written all the same, its four rates being zero. *)
Theorem port_rate_law (self : Telemetry13.t) (ev : EventOFPPortStatsReply)
    (now : float) (stat : OFPPortStats) :
  NoDup (port_no <$> body ev) ->
  stat ∈ body ev ->
  port_no stat < OFPP_MAX ->
  let '(self', rows) := port_stats_reply_handler self ev now in
  baseline self' (reply_dpid ev) (port_no stat) = Some (sample_of now stat)
  ∧ ∃ r, rows_for (port_no stat) rows = [r]
      ∧ match baseline self (reply_dpid ev) (port_no stat) with
        | Some (t0, rx0, tx0, rpk0, tpk0) =>
            let dt := max epsilon (now - t0)%float in
            r_rx_bps r
            = round2 (8.0 * float_of_int (rx_bytes stat - rx0) / dt)%float
            ∧ r_tx_bps r
              = round2 (8.0 * float_of_int (tx_bytes stat - tx0) / dt)%float
            ∧ r_rx_pps r
              = round2 (float_of_int (rx_packets stat - rpk0) / dt)%float
            ∧ r_tx_pps r
              = round2 (float_of_int (tx_packets stat - tpk0) / dt)%float
        | None =>
            r_rx_bps r = 0%float ∧ r_tx_bps r = 0%float
            ∧ r_rx_pps r = 0%float ∧ r_tx_pps r = 0%float
        end.
Proof.
  intros Hnd Hin Hp. unfold port_stats_reply_handler.
  set (prev := default ∅ (prev_port self !! reply_dpid ev)).
  pose proof (port_stats_rows now (reply_dpid ev) (body ev) prev Hnd) as Hrows.
  pose proof (port_stats_stored now (reply_dpid ev) (body ev) prev stat
                Hnd Hin Hp) as Hst.
  destruct (port_stats now (reply_dpid ev) prev (body ev)) as [prev' rows].
  simpl in Hrows, Hst. split.
  - unfold baseline. simpl. rewrite lookup_insert_eq. simpl. exact Hst.
  - assert (baseline self (reply_dpid ev) (port_no stat) = prev !! port_no stat)
      as ->.
    { unfold baseline. subst prev.
      destruct (prev_port self !! reply_dpid ev); simpl; [reflexivity|].
      rewrite lookup_empty. reflexivity. }
    destruct (snd (port_stat now (reply_dpid ev) prev stat)) as [r|] eqn:Hr.
    + exists r. split.
      * subst rows. apply rows_for_present; try assumption.
        intros st r'. apply port_stat_row_port.
      * unfold port_stat in Hr.
        destruct (N.leb_spec OFPP_MAX (port_no stat)) as [Hle|_]; [lia|].
        destruct (prev !! port_no stat) as [[[[[t0 rx0] tx0] rpk0] tpk0]|];
          simpl in Hr; injection Hr as <-; simpl; auto.
    + exfalso. unfold port_stat in Hr.
      destruct (N.leb_spec OFPP_MAX (port_no stat)) as [Hle|_]; [lia|].
      destruct (match prev !! port_no stat with
                | Some s => rates now s stat
                | None => _ end) as [[[a b] c] d].
      discriminate.
Qed.

(** C3, the first sample: the first reply about a port yields a row, its
    rates being zero. *)
Lemma first_sample_yields_a_row :
  baseline Telemetry13.init 1 1 = None
  ∧ snd (port_stats_reply_handler Telemetry13.init first_reply 0)
    = [ {| r_timestamp := 0; r_dpid := 1; r_port := 1;
           r_rx_bytes := 1000; r_tx_bytes := 0;
           r_rx_pkts := 10; r_tx_pkts := 0;
           r_rx_bps := 0; r_tx_bps := 0; r_rx_pps := 0; r_tx_pps := 0 |} ].
Proof. split; vm_compute; reflexivity. Qed.
End TelemetryFacts.

(** ** Switches leaving *)

Section DisconnectFacts.
Import Telemetry13 Controller.

(** C5, as the applications have it. When a switch leaves, the telemetry
    forgets its connection and its samples, and keeps those of the other
    switches; the learning switch, which has no handler for the event,
    keeps its table, the entries of the switch that left included. *)
Theorem switch_left (c : Controller.t) (d : Datapath) :
  let c' := on_EventDP c {| dp := d; enter := false |} in
  datapaths (telemetry c') !! id d = None
  ∧ prev_port (telemetry c') !! id d = None
  ∧ (∀ port, baseline (telemetry c') (id d) port = None)
  ∧ (∀ dpid, dpid ≠ id d ->
       datapaths (telemetry c') !! dpid = datapaths (telemetry c) !! dpid
       ∧ prev_port (telemetry c') !! dpid = prev_port (telemetry c) !! dpid)
  ∧ learning_switch c' = learning_switch c.
Proof.
  intros c'. subst c'. unfold on_EventDP, _handler_dp, baseline. simpl.
  rewrite !lookup_delete_eq.
  split; [reflexivity|]. split; [reflexivity|]. split; [reflexivity|].
  split; [|reflexivity].
  intros dpid Hne. rewrite !lookup_delete_ne by congruence. auto.
Qed.

(** C5, the table of the learning switch: what was learned on a switch
    is still there after the switch has left, and after it has come back
    on another connection. *)
Lemma mac_table_survives_disconnect :
  (LearningSwitch13.mac_to_port (learning_switch after_leave) !! 1
     ≫= (λ table : gmap string N, table !! "00:00:00:00:00:aa"%string)) = Some 1
  ∧ datapaths (telemetry after_leave) !! 1 = None
  ∧ (LearningSwitch13.mac_to_port (learning_switch after_rejoin) !! 1
       ≫= (λ table : gmap string N, table !! "00:00:00:00:00:aa"%string)) = Some 1
  ∧ datapaths (telemetry after_rejoin) !! 1 = Some session_b.
Proof. repeat split; vm_compute; reflexivity. Qed.
End DisconnectFacts.

(** ** The scenarios of the specification *)

Section Scenarios.
Import ofproto_v1_3.

(** A frame from an unknown host to an unknown destination is flooded,
    and the host is learned on its port. *)
Example unknown_destination_flooded :
  snd (LearningSwitch13._packet_in_handler LearningSwitch13.init host_in)
  = [PacketOut {| po_buffer_id := OFP_NO_BUFFER;
                  po_in_port := 1;
                  po_actions := [Output OFPP_FLOOD];
                  po_data := RawData [] |}]
  ∧ learned LearningSwitch13.init host_in !! "00:00:00:00:00:aa"%string
    = Some 1.
Proof. split; vm_compute; reflexivity. Qed.

(** An ARP request for the VIP is answered with the virtual MAC, out of
    the port it came in on, whatever the pool. *)
Example vip_arp_answered (self : SimpleLoadBalancer.t) (in_port : N)
    (sender_mac sender_ip : string) (pkt : Packet) :
  pkt_arp pkt = Some {| opcode := ARP_REQUEST;
                        src_mac := sender_mac; src_ip := sender_ip;
                        dst_mac := "00:00:00:00:00:00";
                        dst_ip := SimpleLoadBalancer.VIP_IP |} ->
  SimpleLoadBalancer.sent_of
    (SimpleLoadBalancer.packet_in self
       {| ev_dpid := 1; ev_in_port := in_port;
          ev_buffer_id := OFP_NO_BUFFER; ev_data := []; ev_pkt := pkt |})
  = [PacketOut
       {| po_buffer_id := OFP_NO_BUFFER;
          po_in_port := OFPP_CONTROLLER;
          po_actions := [Output in_port];
          po_data :=
            Serialized
              {| eth_dst := sender_mac;
                 eth_src := SimpleLoadBalancer.VIP_MAC;
                 ethertype := ether_types.ETH_TYPE_ARP |}
              {| opcode := ARP_REPLY;
                 src_mac := SimpleLoadBalancer.VIP_MAC;
                 src_ip := SimpleLoadBalancer.VIP_IP;
                 dst_mac := sender_mac; dst_ip := sender_ip |} |}].
Proof.
  intros Ha. unfold SimpleLoadBalancer.packet_in,
    SimpleLoadBalancer.packet_in_traced. simpl. rewrite Ha. reflexivity.
Qed.

(** Two packets to the VIP in a row go to position 0, then position 1. *)
Example two_flows_two_backends :
  snd (SimpleLoadBalancer.run_traced SimpleLoadBalancer.init
         [client_in; client_in]) = [0; 1]%nat.
Proof. vm_compute. reflexivity. Qed.

(** The first backend of the pool has an address that is no dotted quad:
    were its MAC in the cache, the translation to it would raise at the
    first send, no rule being installed, and the pointer would have
    moved. *)
Example first_backend_not_translated :
  ipv4_text_ok (SimpleLoadBalancer.ip first_backend) = false
  ∧ SimpleLoadBalancer.packet_in backend_seen client_in
    = SimpleLoadBalancer.Raised SimpleLoadBalancer.AddrFormatError
        (decided backend_seen client_in first_backend) []
  ∧ SimpleLoadBalancer.rr_index
      (SimpleLoadBalancer.state_of
         (SimpleLoadBalancer.packet_in backend_seen client_in)) = 1%nat.
Proof. repeat split; vm_compute; reflexivity. Qed.

(** The packet of the client held in a buffer of the switch, the second
    backend being resolved: the two rules are sent, the packet-out is
    refused. *)
Example buffered_packet_rules_only :
  SimpleLoadBalancer.packet_in second_backend_seen client_in_buffered
  = SimpleLoadBalancer.Raised SimpleLoadBalancer.AssertionError
      (decided second_backend_seen client_in_buffered second_backend)
      [FlowMod (forward_rule second_backend "00:00:00:00:00:02");
       FlowMod (reverse_rule second_backend client_in_buffered client_header)].
Proof. vm_compute. reflexivity. Qed.

(** A frame to an unknown destination held in a buffer of the switch:
    the host is learned, the packet-out is refused. *)
Example buffered_frame_not_flooded :
  LearningSwitch13._packet_in_outcome LearningSwitch13.init
    {| ev_dpid := 1; ev_in_port := 1; ev_buffer_id := 7; ev_data := [];
       ev_pkt := ev_pkt host_in |}
  = (host_known, [], Some LearningSwitch13.AssertionError).
Proof. vm_compute. reflexivity. Qed.
End Scenarios.

(** ** The statements at the sample events *)

Section Witnesses.
Import ofproto_v1_3.

Lemma forward_or_flood_witness :
  real_ports host_known
  ∧ ev_in_port reply_in ≠ OFPP_FLOOD
  ∧ LearningSwitch13.ignored (pkt_eth (ev_pkt reply_in)) = false
  ∧ snd (LearningSwitch13._packet_in_handler host_known reply_in)
    = [FlowMod {| fm_buffer_id := OFP_NO_BUFFER;
                  fm_priority := 1;
                  fm_match := [("eth_dst"%string, OXMStr "00:00:00:00:00:aa")];
                  fm_instructions :=
                    [OFPInstructionActions OFPIT_APPLY_ACTIONS [Output 1]];
                  fm_idle_timeout := 0;
                  fm_hard_timeout := 0 |}].
Proof.
  assert (real_ports host_known) as H1.
  { apply real_ports_packet_in; [apply real_ports_init|discriminate]. }
  assert (ev_in_port reply_in ≠ OFPP_FLOOD) as H2 by discriminate.
  assert (LearningSwitch13.ignored (pkt_eth (ev_pkt reply_in)) = false) as H3
    by reflexivity.
  split; [exact H1|]. split; [exact H2|]. split; [exact H3|].
  pose proof (forward_or_flood host_known reply_in H1 H2 H3) as H.
  destruct (LearningSwitch13._packet_in_handler host_known reply_in)
    as [self' sent] eqn:E.
  destruct H as (table & Ht & H).
  assert (table !! eth_dst (pkt_eth (ev_pkt reply_in)) = Some 1) as Hd.
  { apply (f_equal fst) in E. simpl in E. subst self'.
    rewrite packet_in_table in Ht by exact H3. injection Ht as <-.
    vm_compute. reflexivity. }
  rewrite Hd in H. destruct H as (_ & Hs & _).
  simpl. exact Hs.
Defined.

Lemma one_port_per_mac_witness :
  LearningSwitch13.ignored (pkt_eth (ev_pkt host_in)) = false
  ∧ LearningSwitch13.ignored (pkt_eth (ev_pkt host_moved_in)) = false
  ∧ ev_dpid host_moved_in = ev_dpid host_in
  ∧ eth_src (pkt_eth (ev_pkt host_moved_in)) = eth_src (pkt_eth (ev_pkt host_in))
  ∧ (∃ table,
       LearningSwitch13.mac_to_port
         (fst (LearningSwitch13._packet_in_handler host_known host_moved_in)) !! 1
       = Some table
       ∧ entries_for table "00:00:00:00:00:aa"
         = [("00:00:00:00:00:aa"%string, 5)]).
Proof.
  repeat (split; [reflexivity|]).
  exact (proj1 (proj2
           (one_port_per_mac LearningSwitch13.init host_in host_moved_in
              eq_refl eq_refl eq_refl eq_refl))).
Defined.

Lemma lldp_and_ipv6_multicast_ignored_witness :
  (ethertype (pkt_eth (ev_pkt lldp_in)) = ether_types.ETH_TYPE_LLDP
   ∨ String.prefix "33:33:" (eth_dst (pkt_eth (ev_pkt lldp_in))) = true)
  ∧ LearningSwitch13._packet_in_handler host_known lldp_in = (host_known, []).
Proof.
  assert (ethertype (pkt_eth (ev_pkt lldp_in)) = ether_types.ETH_TYPE_LLDP
          ∨ String.prefix "33:33:" (eth_dst (pkt_eth (ev_pkt lldp_in))) = true)
    as H by (left; reflexivity).
  split; [exact H|].
  exact (lldp_and_ipv6_multicast_ignored host_known lldp_in H).
Defined.


Lemma rr_index_in_pool_witness :
  SimpleLoadBalancer.SERVER_POOL_init ≠ []
  ∧ pointer_in_range
      (SimpleLoadBalancer.run SimpleLoadBalancer.init sample_stream).
Proof.
  assert (SimpleLoadBalancer.SERVER_POOL_init ≠ []) as H by discriminate.
  split; [exact H|].
  pose proof (rr_index_in_pool SimpleLoadBalancer.SERVER_POOL_init H)
    as (_ & _ & _ & Hrun).
  exact (proj1 (Hrun sample_stream)).
Defined.

Lemma vip_nat_installed_witness :
  pkt_ipv4 (ev_pkt client_in) = Some client_header
  ∧ vip_decision client_in = true
  ∧ ev_buffer_id client_in = OFP_NO_BUFFER
  ∧ SimpleLoadBalancer.SERVER_POOL second_backend_seen
      !! SimpleLoadBalancer.rr_index second_backend_seen = Some second_backend
  ∧ ipv4_text_ok (SimpleLoadBalancer.ip second_backend) = true
  ∧ resolved_mac second_backend_seen client_in second_backend
    = Some "00:00:00:00:00:02"%string
  ∧ SimpleLoadBalancer.truthy "00:00:00:00:00:02" = true
  ∧ length (List.filter is_FlowMod
              (SimpleLoadBalancer.sent_of
                 (SimpleLoadBalancer.packet_in second_backend_seen client_in)))
    = 2%nat.
Proof.
  assert (SimpleLoadBalancer.SERVER_POOL second_backend_seen
            !! SimpleLoadBalancer.rr_index second_backend_seen
          = Some second_backend) as Hs by (vm_compute; reflexivity).
  assert (resolved_mac second_backend_seen client_in second_backend
          = Some "00:00:00:00:00:02"%string) as Hm
    by (vm_compute; reflexivity).
  repeat (split; [first [reflexivity | exact Hs | exact Hm]|]).
  destruct (vip_nat_installed second_backend_seen client_in client_header
              second_backend "00:00:00:00:00:02" eq_refl eq_refl eq_refl
              Hs eq_refl Hm eq_refl) as (self' & _ & H).
  exact H.
Defined.

Lemma unresolved_backend_consumes_slot_witness :
  pkt_ipv4 (ev_pkt client_in) = Some client_header
  ∧ vip_decision client_in = true
  ∧ SimpleLoadBalancer.SERVER_POOL SimpleLoadBalancer.init
      !! SimpleLoadBalancer.rr_index SimpleLoadBalancer.init = Some first_backend
  ∧ SimpleLoadBalancer.truthy_opt
      (resolved_mac SimpleLoadBalancer.init client_in first_backend) = false
  ∧ snd (SimpleLoadBalancer.packet_in_traced SimpleLoadBalancer.init client_in)
    = Some 0%nat
  ∧ SimpleLoadBalancer.sent_of
      (SimpleLoadBalancer.packet_in SimpleLoadBalancer.init client_in)
    = [flood_unchanged client_in]
  ∧ snd (SimpleLoadBalancer.packet_in_traced after_first_flood client_in)
    = Some 1%nat.
Proof.
  assert (SimpleLoadBalancer.truthy_opt
            (resolved_mac SimpleLoadBalancer.init client_in first_backend) = false)
    as Hm by (vm_compute; reflexivity).
  split; [reflexivity|]. split; [reflexivity|]. split; [reflexivity|].
  split; [exact Hm|].
  destruct (unresolved_backend_consumes_slot SimpleLoadBalancer.init
              client_in client_in client_header first_backend
              eq_refl eq_refl eq_refl eq_refl Hm)
    as (H1 & _ & _ & H4 & H5).
  split; [exact H1|]. split; [rewrite (H5 eq_refl); reflexivity|exact H4].
Defined.

Lemma port_rate_law_witness :
  NoDup (Telemetry13.port_no <$> Telemetry13.body second_reply)
  ∧ second_port_stats ∈ Telemetry13.body second_reply
  ∧ Telemetry13.port_no second_port_stats < OFPP_MAX
  ∧ ∃ r, rows_for 1
           (snd (Telemetry13.port_stats_reply_handler sampled_once second_reply 2))
         = [r]
      ∧ Telemetry13.r_rx_bps r = 8000%float
      ∧ Telemetry13.r_rx_pps r = 10%float.
Proof.
  assert (NoDup (Telemetry13.port_no <$> Telemetry13.body second_reply)) as H1
    by (apply NoDup_singleton).
  assert (second_port_stats ∈ Telemetry13.body second_reply) as H2
    by (apply list_elem_of_here).
  assert (Telemetry13.port_no second_port_stats < OFPP_MAX) as H3
    by reflexivity.
  split; [exact H1|]. split; [exact H2|]. split; [exact H3|].
  pose proof (port_rate_law sampled_once second_reply 2 second_port_stats
                H1 H2 H3) as H.
  destruct (Telemetry13.port_stats_reply_handler sampled_once second_reply 2)
    as [self' rows].
  destruct H as (_ & r & Hr & Hrates).
  assert (baseline sampled_once (Telemetry13.reply_dpid second_reply)
            (Telemetry13.port_no second_port_stats)
          = Some (0%float, 1000%Z, 0%Z, 10%Z, 0%Z)) as Hb
    by (vm_compute; reflexivity).
  rewrite Hb in Hrates. destruct Hrates as (Hrx & _ & Hpps & _).
  exists r. split; [exact Hr|]. split; [exact Hrx|exact Hpps].
Defined.
End Witnesses.

(** ** The learning switch over streams of events *)

Section LearningStreams.
Import ofproto_v1_3 LearningSwitch13.

(** One packet-in changes the port of the address it records, and of no
    other address or switch. *)
Lemma port_of_packet_in (self : LearningSwitch13.t) (ev : EventOFPPacketIn)
    (dpid : N) (mac_addr : string) :
  port_of (fst (_packet_in_handler self ev)) dpid mac_addr
  = if observes dpid mac_addr ev then Some (ev_in_port ev)
    else port_of self dpid mac_addr.
Proof.
  unfold observes, port_of.
  destruct (ignored (pkt_eth (ev_pkt ev))) eqn:Hi; simpl.
  { unfold _packet_in_handler, _packet_in_outcome. rewrite Hi. reflexivity. }
  rewrite packet_in_state by assumption.
  destruct (N.eqb_spec (ev_dpid ev) dpid) as [<-|Hd]; simpl.
  - rewrite lookup_insert_eq. simpl. unfold learned.
    destruct (String.eqb_spec (eth_src (pkt_eth (ev_pkt ev))) mac_addr)
      as [<-|Hm].
    + apply lookup_insert_eq.
    + rewrite lookup_insert_ne by assumption.
      destruct (mac_to_port self !! ev_dpid ev); simpl; [reflexivity|].
      apply lookup_empty.
  - rewrite lookup_insert_ne by assumption. reflexivity.
Qed.

Lemma run_cons (self : LearningSwitch13.t) (ev : EventOFPPacketIn)
    (evs : list EventOFPPacketIn) :
  run self (ev :: evs) = run (fst (_packet_in_handler self ev)) evs.
Proof. reflexivity. Qed.

(** The most recent observation wins, over any stream: the port the
    learning switch has for an address on a switch is the ingress port of
    the last packet-in that recorded the address there, or what it had
    before when no packet-in of the stream did. *)
Theorem last_observation_wins (self : LearningSwitch13.t)
    (evs : list EventOFPPacketIn) (dpid : N) (mac_addr : string) :
  port_of (run self evs) dpid mac_addr
  = match last_seen dpid mac_addr evs with
    | Some p => Some p
    | None => port_of self dpid mac_addr
    end.
Proof.
  revert self. induction evs as [|ev evs IH]; intros self; [reflexivity|].
  rewrite run_cons, IH, port_of_packet_in. unfold last_seen. simpl.
  destruct (observes dpid mac_addr ev); [|reflexivity].
  destruct (List.filter (observes dpid mac_addr) evs) as [|ev' l];
    [reflexivity|].
  rewrite last_cons_cons.
  destruct (last (ev' :: l)) eqn:E; [reflexivity|].
  apply last_None in E. discriminate.
Qed.

(** There is no aging: an address the learning switch has a port for on
    a switch has one after any stream of events. *)
Theorem learned_never_forgotten (self : LearningSwitch13.t)
    (evs : list EventOFPPacketIn) (dpid : N) (mac_addr : string) :
  is_Some (port_of self dpid mac_addr) ->
  is_Some (port_of (run self evs) dpid mac_addr).
Proof.
  revert self. induction evs as [|ev evs IH]; intros self H; [exact H|].
  rewrite run_cons. apply IH. rewrite port_of_packet_in.
  destruct (observes dpid mac_addr ev); [eauto|exact H].
Qed.

(** From the initial state, over a stream of packet-in events none of
    which comes in on the reserved port [OFPP_FLOOD], no learned port is
    that port. *)
Theorem real_ports_reachable (evs : list EventOFPPacketIn) :
  Forall (λ ev, ev_in_port ev ≠ OFPP_FLOOD) evs ->
  real_ports (run LearningSwitch13.init evs).
Proof.
  generalize real_ports_init. generalize LearningSwitch13.init.
  induction evs as [|ev evs IH]; intros self Hwf Hall; [exact Hwf|].
  apply Forall_cons in Hall as [Hev Hall]. rewrite run_cons.
  apply IH; [|exact Hall]. apply real_ports_packet_in; assumption.
Qed.

(** Learning, then forwarding: once a frame from an address has come in
    on a port of a switch, a frame to that address from another address,
    on the same switch, makes the handler send one flow-mod whose action
    is the output to that port; the frame itself is not sent out. *)
Theorem learn_then_unicast (self : LearningSwitch13.t)
    (ev1 ev2 : EventOFPPacketIn) :
  ignored (pkt_eth (ev_pkt ev1)) = false ->
  ignored (pkt_eth (ev_pkt ev2)) = false ->
  ev_dpid ev2 = ev_dpid ev1 ->
  eth_dst (pkt_eth (ev_pkt ev2)) = eth_src (pkt_eth (ev_pkt ev1)) ->
  eth_src (pkt_eth (ev_pkt ev2)) ≠ eth_src (pkt_eth (ev_pkt ev1)) ->
  ev_in_port ev1 ≠ OFPP_FLOOD ->
  snd (_packet_in_handler (fst (_packet_in_handler self ev1)) ev2)
  = [add_flow 1
       [("eth_dst"%string, OXMStr (eth_src (pkt_eth (ev_pkt ev1))))]
       [Output (ev_in_port ev1)]
       (Some (ev_buffer_id ev2))].
Proof.
  intros Hi1 Hi2 Hd Hdst Hsrc Hp.
  set (s1 := fst (_packet_in_handler self ev1)).
  assert (learned s1 ev2 !! eth_dst (pkt_eth (ev_pkt ev2))
          = Some (ev_in_port ev1)) as Hl.
  { unfold learned. rewrite Hdst, lookup_insert_ne by assumption.
    subst s1. rewrite Hd, packet_in_table by assumption. simpl.
    apply lookup_insert_eq. }
  unfold _packet_in_handler at 1. unfold _packet_in_outcome. rewrite Hi2.
  fold (learned s1 ev2). rewrite Hl.
  apply N.eqb_neq in Hp. rewrite Hp. simpl. rewrite Hdst. reflexivity.
Qed.
End LearningStreams.

(** ** The load balancer: the other branches of the handler *)

Section LoadBalancerBranches.
Import ofproto_v1_3 SimpleLoadBalancer.
Local Open Scope nat_scope.

Lemma intercept_cache (self : SimpleLoadBalancer.t) (ev : EventOFPPacketIn) :
  ip2mac (state_of (fst (intercept self ev))) = ip2mac self.
Proof.
  unfold intercept.
  destruct (pkt_ipv4 (ev_pkt ev)) as [h|]; [|reflexivity].
  destruct (String.eqb (ipv4_dst h) VIP_IP); [|reflexivity].
  unfold _choose_server.
  destruct (SERVER_POOL self !! rr_index self) as [srv|]; [|reflexivity].
  simpl.
  match goal with |- context [nat_to_server ?s ev h ?i srv] =>
    destruct (nat_to_server_frame s ev h i srv) as (_ & H & _) end.
  exact H.
Qed.

(** What the handler leaves in the address cache, on every path. *)
Lemma ip2mac_packet_in (self : SimpleLoadBalancer.t) (ev : EventOFPPacketIn) :
  ip2mac (state_of (packet_in self ev)) = observed self ev.
Proof.
  unfold packet_in. destruct (vip_arp_request ev) eqn:Ha.
  - unfold packet_in_traced, observed, vip_arp_request in *.
    destruct (pkt_arp (ev_pkt ev)) as [a|]; [|discriminate]. rewrite Ha.
    destruct (pkt_ipv4 (ev_pkt ev)) as [h|];
      [destruct (truthy (eth_src (pkt_eth (ev_pkt ev))))|]; reflexivity.
  - rewrite learn_then_intercept by assumption. apply intercept_cache.
Qed.

Lemma observed_keeps (self : SimpleLoadBalancer.t) (ev : EventOFPPacketIn)
    (k : string) :
  is_Some (ip2mac self !! k) -> is_Some (observed self ev !! k).
Proof.
  intros H. unfold observed.
  assert (∀ (c : gmap string string) a b,
            is_Some (c !! k) -> is_Some (<[a := b]> c !! k)) as Hins.
  { intros c a b Hc. destruct (decide (a = k)) as [->|Hne].
    - rewrite lookup_insert_eq. eauto.
    - rewrite lookup_insert_ne by assumption. exact Hc. }
  destruct (pkt_ipv4 (ev_pkt ev)) as [h|];
    [destruct (truthy (eth_src (pkt_eth (ev_pkt ev))))|];
    destruct (pkt_arp (ev_pkt ev)) as [a|]; auto.
Qed.

Lemma lb_run_cons (self : SimpleLoadBalancer.t) (ev : EventOFPPacketIn)
    (evs : list EventOFPPacketIn) :
  run self (ev :: evs) = run (state_of (packet_in self ev)) evs.
Proof.
  unfold run, packet_in. simpl.
  destruct (packet_in_traced self ev) as [o sel]. simpl.
  destruct (run_traced (state_of o) evs) as [s sels]. reflexivity.
Qed.

(** The address cache only grows: an IP address that has a MAC in the
    cache has one after any stream of packet-in events. *)
Theorem address_cache_never_shrinks (self : SimpleLoadBalancer.t)
    (evs : list EventOFPPacketIn) (k : string) :
  is_Some (ip2mac self !! k) ->
  is_Some (ip2mac (run self evs) !! k).
Proof.
  revert self. induction evs as [|ev evs IH]; intros self H; [exact H|].
  rewrite lb_run_cons. apply IH. rewrite ip2mac_packet_in.
  apply observed_keeps, H.
Qed.

(** The sender of an ARP payload is in the address cache when the handler
    is done, whatever the handler did with the packet-in; it overrides
    the source of an IPv4 header with the same address. *)
Theorem arp_sender_cached (self : SimpleLoadBalancer.t) (ev : EventOFPPacketIn)
    (a : arp) :
  pkt_arp (ev_pkt ev) = Some a ->
  ip2mac (state_of (packet_in self ev)) !! src_ip a = Some (src_mac a).
Proof.
  intros Ha. rewrite ip2mac_packet_in. unfold observed. rewrite Ha.
  apply lookup_insert_eq.
Qed.

(** Proxy ARP: an ARP request for the VIP is answered at once. The
    handler returns having sent one packet-out, out of the ingress port,
    with the reply that gives the virtual MAC for the VIP to the sender of
    the request; it has cached what the packet-in shows, picked no
    backend, and left pointer and pool as they were, whatever else the
    packet-in carries. *)
Theorem proxy_arp (self : SimpleLoadBalancer.t) (ev : EventOFPPacketIn)
    (a : arp) :
  pkt_arp (ev_pkt ev) = Some a ->
  opcode a = ARP_REQUEST ->
  dst_ip a = VIP_IP ->
  packet_in_traced self ev
  = (Returned
       {| rr_index := rr_index self;
          ip2mac := observed self ev;
          SERVER_POOL := SERVER_POOL self |}
       [PacketOut
          {| po_buffer_id := OFP_NO_BUFFER;
             po_in_port := OFPP_CONTROLLER;
             po_actions := [Output (ev_in_port ev)];
             po_data :=
               Serialized
                 {| eth_dst := src_mac a; eth_src := VIP_MAC;
                    ethertype := ether_types.ETH_TYPE_ARP |}
                 {| opcode := ARP_REPLY;
                    src_mac := VIP_MAC; src_ip := VIP_IP;
                    dst_mac := src_mac a; dst_ip := src_ip a |} |}],
     None).
Proof.
  intros Ha Hop Hdst. unfold packet_in_traced, observed. rewrite Ha, Hop, Hdst.
  rewrite ?String.eqb_refl, ?N.eqb_refl. simpl.
  destruct (pkt_ipv4 (ev_pkt ev)) as [h|];
    [destruct (truthy (eth_src (pkt_eth (ev_pkt ev))))|]; reflexivity.
Qed.

Lemma other_traffic_passed_over_aux (self : SimpleLoadBalancer.t)
    (ev : EventOFPPacketIn) :
  to_vip ev = false ->
  vip_arp_request ev = false ->
  packet_in self ev
  = Returned {| rr_index := rr_index self;
                ip2mac := observed self ev;
                SERVER_POOL := SERVER_POOL self |} [].
Proof.
  intros Hv Ha. unfold packet_in.
  rewrite learn_then_intercept by assumption.
  unfold to_vip in Hv. unfold intercept.
  destruct (pkt_ipv4 (ev_pkt ev)) as [h|]; [rewrite Hv|]; reflexivity.
Qed.

(** Traffic that is neither IPv4 to the VIP nor an ARP request for the
    VIP is left to the learning switch: the handler returns having sent
    nothing, with pointer and pool as they were; it has only cached what
    the packet-in shows. *)
Theorem other_traffic_passed_over (self : SimpleLoadBalancer.t)
    (ev : EventOFPPacketIn) :
  to_vip ev = false ->
  vip_arp_request ev = false ->
  packet_in_traced self ev
  = (Returned {| rr_index := rr_index self;
                 ip2mac := observed self ev;
                 SERVER_POOL := SERVER_POOL self |} [], None).
Proof.
  intros Hv Ha. rewrite learn_then_intercept by assumption.
  unfold to_vip in Hv. unfold intercept.
  destruct (pkt_ipv4 (ev_pkt ev)) as [h|]; [rewrite Hv|]; reflexivity.
Qed.

(** With the pointer outside the pool, an empty pool for one, a packet to
    the VIP makes the handler raise [IndexError]: nothing is sent, not
    even the packet itself, and the pointer stays; what the packet-in
    shows has been cached before. *)
Theorem pointer_outside_pool_raises (self : SimpleLoadBalancer.t)
    (ev : EventOFPPacketIn) :
  length (SERVER_POOL self) <= rr_index self ->
  vip_decision ev = true ->
  packet_in self ev
  = Raised IndexError
      {| rr_index := rr_index self;
         ip2mac := observed self ev;
         SERVER_POOL := SERVER_POOL self |} [].
Proof.
  intros Hlen Hd. unfold vip_decision in Hd.
  apply andb_true_iff in Hd as [Hv Ha]. apply negb_true_iff in Ha.
  unfold packet_in. rewrite learn_then_intercept by assumption.
  unfold to_vip in Hv. unfold intercept, _choose_server. simpl.
  destruct (pkt_ipv4 (ev_pkt ev)) as [h|]; [|discriminate]. rewrite Hv.
  rewrite (lookup_ge_None_2 _ _ Hlen). reflexivity.
Qed.

(** What a packet-in does to the pool: nothing, or it writes the MAC
    field of one server that had none. *)
Lemma pool_packet_in (self : SimpleLoadBalancer.t) (ev : EventOFPPacketIn) :
  SERVER_POOL (state_of (packet_in self ev)) = SERVER_POOL self
  ∨ ∃ i srv v,
      SERVER_POOL self !! i = Some srv
      ∧ truthy_opt (mac srv) = false
      ∧ SERVER_POOL (state_of (packet_in self ev))
        = <[i := {| ip := ip srv; mac := v |}]> (SERVER_POOL self).
Proof.
  destruct (vip_arp_request ev) eqn:Ha.
  { left. apply arp_request_answered, Ha. }
  unfold packet_in. rewrite learn_then_intercept by assumption.
  unfold intercept, _choose_server. simpl.
  destruct (pkt_ipv4 (ev_pkt ev)) as [h|]; [|left; reflexivity].
  destruct (String.eqb (ipv4_dst h) VIP_IP); [|left; reflexivity].
  destruct (SERVER_POOL self !! rr_index self) as [srv|] eqn:Hsrv;
    [|left; reflexivity].
  simpl. unfold nat_to_server, send_packet_out.
  destruct (truthy_opt (mac srv)) eqn:Hm; simpl.
  - left.
    repeat match goal with
           | |- context [if ?b then _ else _] => destruct b
           end; reflexivity.
  - right. exists (rr_index self), srv, (observed self ev !! ip srv).
    split; [exact Hsrv|]. split; [exact Hm|].
    repeat match goal with
           | |- context [if ?b then _ else _] => destruct b
           end; reflexivity.
Qed.

(** The handler never changes the address of a backend, nor adds or
    removes one: after any stream of packet-in events the pool lists the
    same IP addresses in the same order. *)
Theorem pool_addresses_fixed (self : SimpleLoadBalancer.t)
    (evs : list EventOFPPacketIn) :
  ip <$> SERVER_POOL (run self evs) = ip <$> SERVER_POOL self.
Proof.
  revert self. induction evs as [|ev evs IH]; intros self; [reflexivity|].
  rewrite lb_run_cons, IH.
  destruct (pool_packet_in self ev) as [->|(i & srv & v & Hi & _ & ->)];
    [reflexivity|].
  rewrite list_fmap_insert. simpl. apply list_insert_id.
  rewrite list_lookup_fmap, Hi. reflexivity.
Qed.

(** A MAC in the pool is there for good: a backend whose MAC field is
    set keeps it over any stream of packet-in events, whatever the
    address cache comes to say about its IP address. *)
Theorem pool_mac_kept (self : SimpleLoadBalancer.t)
    (evs : list EventOFPPacketIn) (j : nat) (srv : server) :
  SERVER_POOL self !! j = Some srv ->
  truthy_opt (mac srv) = true ->
  SERVER_POOL (run self evs) !! j = Some srv.
Proof.
  revert self. induction evs as [|ev evs IH]; intros self Hj Hm; [exact Hj|].
  rewrite lb_run_cons. apply IH; [|exact Hm].
  destruct (pool_packet_in self ev) as [->|(i & srv' & v & Hi & Hm' & ->)];
    [exact Hj|].
  rewrite list_lookup_insert_ne; [exact Hj|].
  intros ->. rewrite Hi in Hj. injection Hj as ->. congruence.
Qed.

(** Deferred NAT. The backend under the pointer has no MAC yet, and an
    IP address the serialiser takes; an ARP packet of that backend comes
    in (not a request for the VIP), then, without a buffer, an IPv4
    packet of a client to the VIP. The ARP packet moves nothing, and the
    client's packet is translated to that backend with the MAC the ARP
    packet gave: forward rule, reverse rule, packet-out. *)
Theorem backend_learned_then_nat (self : SimpleLoadBalancer.t)
    (ev_arp ev : EventOFPPacketIn) (a : arp) (h : ipv4) (srv : server) :
  SERVER_POOL self !! rr_index self = Some srv ->
  truthy_opt (mac srv) = false ->
  ipv4_text_ok (ip srv) = true ->
  pkt_ipv4 (ev_pkt ev_arp) = None ->
  pkt_arp (ev_pkt ev_arp) = Some a ->
  vip_arp_request ev_arp = false ->
  src_ip a = ip srv ->
  truthy (src_mac a) = true ->
  pkt_ipv4 (ev_pkt ev) = Some h ->
  pkt_arp (ev_pkt ev) = None ->
  ipv4_dst h = VIP_IP ->
  ipv4_src h ≠ ip srv ->
  ev_buffer_id ev = OFP_NO_BUFFER ->
  packet_in self ev_arp
  = Returned {| rr_index := rr_index self;
                ip2mac := observed self ev_arp;
                SERVER_POOL := SERVER_POOL self |} []
  ∧ ∃ self',
      packet_in (state_of (packet_in self ev_arp)) ev
      = Returned self'
          [_add_flow 10
             [("eth_type"%string, OXMInt 0x0800);
              ("ipv4_dst"%string, OXMStr VIP_IP)]
             [OFPActionSetField "ipv4_dst" (ip srv);
              OFPActionSetField "eth_dst" (src_mac a);
              Output OFPP_NORMAL];
           _add_flow 10
             [("eth_type"%string, OXMInt 0x0800);
              ("ipv4_src"%string, OXMStr (ip srv));
              ("ipv4_dst"%string, OXMStr (ipv4_src h))]
             [OFPActionSetField "ipv4_src" VIP_IP;
              OFPActionSetField "eth_src" VIP_MAC;
              Output (ev_in_port ev)];
           PacketOut {| po_buffer_id := OFP_NO_BUFFER;
                        po_in_port := ev_in_port ev;
                        po_actions := [OFPActionSetField "ipv4_dst" (ip srv);
                                       OFPActionSetField "eth_dst" (src_mac a);
                                       Output OFPP_FLOOD];
                        po_data := RawData (ev_data ev) |}].
Proof.
  intros Hsrv Hmac Hok H4 Harp Hreq Hip Hm Hh Hnoarp Hdst Hsrc Hb.
  assert (to_vip ev_arp = false) as Hv by (unfold to_vip; rewrite H4; reflexivity).
  rewrite (other_traffic_passed_over_aux self ev_arp Hv Hreq). simpl.
  split; [reflexivity|].
  assert (vip_decision ev = true) as Hd.
  { unfold vip_decision, to_vip, vip_arp_request.
    rewrite Hh, Hnoarp, Hdst, String.eqb_refl. reflexivity. }
  set (s1 := {| rr_index := rr_index self;
                ip2mac := observed self ev_arp;
                SERVER_POOL := SERVER_POOL self |}).
  assert (resolved_mac s1 ev srv = Some (src_mac a)) as Hres.
  { unfold resolved_mac. rewrite Hmac.
    unfold observed at 1. simpl. rewrite Hh, Hnoarp.
    assert (observed self ev_arp !! ip srv = Some (src_mac a)) as Ho.
    { unfold observed. rewrite H4, Harp, Hip. apply lookup_insert_eq. }
    destruct (truthy (eth_src (pkt_eth (ev_pkt ev))));
      [rewrite lookup_insert_ne by assumption|]; exact Ho. }
  rewrite (decision_outcome s1 ev h srv Hh Hd) by exact Hsrv.
  rewrite Hres. simpl. rewrite Hm, Hok. simpl.
  unfold send_packet_out, rewritten_packet. simpl. rewrite Hb. simpl.
  eexists. reflexivity.
Qed.
End LoadBalancerBranches.

(** ** The firewall: loading the rules *)

Section FirewallLoading.
Import SimpleFirewall.
Context {match_kwargs : Type}.
Variable parser_OFPMatch : match_kwargs -> option OFPMatch.
Variable send_msg_ok : nat -> bool.

(** Default allow. Unless the environment names a file that is there and
    parses to a JSON list, the firewall has no rule, and on the
    switch-features event it sends nothing and logs no rule: a variable
    that is unset or empty, a path that is no file, a file that cannot be
    read or parsed, and a JSON value that is no list all come to that. *)
Theorem no_list_no_drop_rule (path : option string) (isfile : string -> bool)
    (load : string -> option (json_document match_kwargs)) (dpid : N) :
  ¬ (∃ p data, path = Some p ∧ p ≠ ""%string ∧ isfile p = true
               ∧ load p = Some (JsonList data)) ->
  drop_rules (init path isfile load) = []
  ∧ switch_features_handler match_kwargs parser_OFPMatch send_msg_ok
      (init path isfile load) dpid = ([], []).
Proof.
  intros Hno.
  assert (drop_rules (init path isfile load) = []) as Hr.
  { unfold init, _load_rules. simpl.
    destruct path as [p|]; [|reflexivity].
    destruct (String.eqb_spec p "") as [->|Hp]; simpl; [reflexivity|].
    destruct (isfile p) eqn:Hf; [|reflexivity].
    destruct (load p) as [[data|]|] eqn:Hl; try reflexivity.
    exfalso. apply Hno. exists p, data. auto. }
  split; [exact Hr|].
  unfold switch_features_handler. rewrite Hr. reflexivity.
Qed.
End FirewallLoading.

(** ** The telemetry: switches, flow statistics and files *)

Section TelemetryStreams.
Import ofproto_v1_3 Telemetry13.

Lemma run_dp_cons (self : Telemetry13.t) (ev : EventDP) (evs : list EventDP) :
  run_dp self (ev :: evs) = run_dp (_handler_dp self ev) evs.
Proof. reflexivity. Qed.

(** The registry follows the last event, the samples any leave: after a
    stream of switch events a switch is registered, with the connection of
    its last event, exactly when that event is an enter (or, without an
    event about it, as before); its samples are gone if an event of the
    stream said it left, and as before otherwise: an enter resets
    nothing. *)
Theorem registry_after_events (self : Telemetry13.t) (evs : list EventDP)
    (dpid : N) :
  datapaths (run_dp self evs) !! dpid
  = match last_event dpid evs with
    | Some ev => if enter ev then Some (dp ev) else None
    | None => datapaths self !! dpid
    end
  ∧ prev_port (run_dp self evs) !! dpid
    = if has_left dpid evs then None else prev_port self !! dpid.
Proof.
  revert self. induction evs as [|ev evs IH]; intros self; [auto|].
  rewrite run_dp_cons. destruct (IH (_handler_dp self ev)) as [IH1 IH2].
  rewrite IH1, IH2. clear IH IH1 IH2.
  unfold last_event, has_left, _handler_dp. simpl.
  destruct (N.eqb_spec (id (dp ev)) dpid) as [<-|Hne]; simpl.
  - split.
    + destruct (List.filter _ evs) as [|ev' l] eqn:Hl.
      * simpl. destruct (enter ev); simpl.
        -- apply lookup_insert_eq.
        -- apply lookup_delete_eq.
      * rewrite last_cons_cons.
        destruct (last (ev' :: l)) eqn:E; [reflexivity|].
        apply last_None in E. discriminate.
    + destruct (enter ev); simpl.
      * reflexivity.
      * destruct (existsb _ evs); [reflexivity|]. apply lookup_delete_eq.
  - rewrite andb_false_r. simpl. split.
    + destruct (last (List.filter _ evs)); [reflexivity|].
      destruct (enter ev); simpl.
      * apply lookup_insert_ne, Hne.
      * apply lookup_delete_ne, Hne.
    + destruct (existsb _ evs); [reflexivity|].
      destruct (enter ev); simpl; [reflexivity|].
      apply lookup_delete_ne, Hne.
Qed.

(** The table-miss entries are never logged: the rows of a flow-stats
    reply are those of its entries of priority other than 0, one each, in
    the order of the reply, with the values of the entry. *)
Theorem flow_rows_skip_table_miss (now : float) (dpid : N)
    (stats : list OFPFlowStats) :
  flow_rows now dpid stats = omap (flow_stat now dpid) stats
  ∧ Forall (λ r, f_priority r ≠ 0 ∧ f_dpid r = dpid) (flow_rows now dpid stats)
  ∧ length (flow_rows now dpid stats)
    = length (List.filter (λ s, negb (default 0 (fs_priority s) =? 0)) stats).
Proof.
  induction stats as [|stat stats (IH1 & IH2 & IH3)]; simpl.
  { split; [reflexivity|]. split; [constructor|reflexivity]. }
  destruct (flow_stat now dpid stat) as [r|] eqn:Hr;
    unfold flow_stat in Hr;
    destruct (N.eqb_spec (default 0 (fs_priority stat)) 0) as [Hz|Hnz];
    try discriminate; simpl.
  - injection Hr as <-.
    split; [f_equal; exact IH1|]. split; [|f_equal; exact IH3].
    constructor; [|exact IH2]. simpl. auto.
  - auto.
Qed.

(** Two appends are one: appending rows to a file and then more rows is
    appending them all at once, so the header is written by the first
    append to a file that is not there, and never again. *)
Theorem append_csv_twice (files : gmap csv_path (list csv_line))
    (path : csv_path) (rows1 rows2 : list csv_line) (header : list string) :
  _append_csv (_append_csv files path rows1 header) path rows2 header
  = _append_csv files path (rows1 ++ rows2) header.
Proof.
  unfold _append_csv.
  destruct (files !! path) as [content|] eqn:Hf;
    rewrite lookup_insert_eq, insert_insert_eq; f_equal.
  - symmetry. apply assoc_L. apply _.
Qed.

Lemma port_stat_row_facts (now : float) (dpid : N) (prev : gmap N sample)
    (stat : OFPPortStats) (r : row) :
  snd (port_stat now dpid prev stat) = Some r ->
  r_dpid r = dpid ∧ r_port r = port_no stat ∧ port_no stat < OFPP_MAX.
Proof.
  unfold port_stat.
  destruct (N.leb_spec OFPP_MAX (port_no stat)) as [Hle|Hlt]; [discriminate|].
  destruct (match prev !! port_no stat with
            | Some s => rates now s stat
            | None => _ end) as [[[a b] c] d].
  simpl. intros [= <-]. auto.
Qed.

Lemma port_stats_row_facts (now : float) (dpid : N) (stats : list OFPPortStats)
    (prev : gmap N sample) :
  Forall (λ r, r_dpid r = dpid ∧ r_port r < OFPP_MAX)
    (snd (port_stats now dpid prev stats)).
Proof.
  revert prev. induction stats as [|stat stats IH]; intros prev; [constructor|].
  simpl. pose proof (port_stat_row_facts now dpid prev stat) as H1.
  destruct (port_stat now dpid prev stat) as [prev1 r].
  specialize (IH prev1).
  destruct (port_stats now dpid prev1 stats) as [prev2 rows].
  simpl in *. destruct r as [r|]; [|exact IH].
  constructor; [|exact IH].
  destruct (H1 r eq_refl) as (Hd & Hp & Hlt). rewrite Hp. auto.
Qed.

Lemma port_stats_reserved (now : float) (dpid : N) (stats : list OFPPortStats)
    (prev : gmap N sample) (port : N) :
  OFPP_MAX <= port ->
  fst (port_stats now dpid prev stats) !! port = prev !! port.
Proof.
  intros Hp. revert prev.
  induction stats as [|stat stats IH]; intros prev; [reflexivity|].
  simpl.
  assert (fst (port_stat now dpid prev stat) !! port = prev !! port) as H1.
  { destruct (decide (port = port_no stat)) as [->|Hne].
    - unfold port_stat.
      destruct (N.leb_spec OFPP_MAX (port_no stat)); [reflexivity|lia].
    - apply port_stat_other, Hne. }
  destruct (port_stat now dpid prev stat) as [prev1 r].
  specialize (IH prev1).
  destruct (port_stats now dpid prev1 stats) as [prev2 rows].
  simpl in *. congruence.
Qed.

Lemma handler_baseline (self : Telemetry13.t) (ev : EventOFPPortStatsReply)
    (now : float) (port : N) :
  baseline (fst (port_stats_reply_handler self ev now)) (reply_dpid ev) port
  = fst (port_stats now (reply_dpid ev)
           (default ∅ (prev_port self !! reply_dpid ev)) (body ev)) !! port.
Proof.
  unfold port_stats_reply_handler, baseline.
  destruct (port_stats now (reply_dpid ev) _ (body ev)) as [prev rows].
  simpl. rewrite lookup_insert_eq. reflexivity.
Qed.

Lemma baseline_default (self : Telemetry13.t) (dpid port : N) :
  default ∅ (prev_port self !! dpid) !! port = baseline self dpid port.
Proof.
  unfold baseline. destruct (prev_port self !! dpid); simpl; [reflexivity|].
  apply lookup_empty.
Qed.

Lemma handler_rows (self : Telemetry13.t) (ev : EventOFPPortStatsReply)
    (now : float) :
  snd (port_stats_reply_handler self ev now)
  = snd (port_stats now (reply_dpid ev)
           (default ∅ (prev_port self !! reply_dpid ev)) (body ev)).
Proof.
  unfold port_stats_reply_handler.
  destruct (port_stats now (reply_dpid ev) _ (body ev)) as [prev rows].
  reflexivity.
Qed.

(** The reserved ports are left out: for a port number from [OFPP_MAX]
    on (the local port of a switch, for one) a reply yields no row, and
    leaves the sample of the port as it was, none if there was none. *)
Theorem reserved_ports_skipped (self : Telemetry13.t)
    (ev : EventOFPPortStatsReply) (now : float) (port : N) :
  OFPP_MAX <= port ->
  rows_for port (snd (port_stats_reply_handler self ev now)) = []
  ∧ baseline (fst (port_stats_reply_handler self ev now)) (reply_dpid ev) port
    = baseline self (reply_dpid ev) port.
Proof.
  intros Hp. split.
  - rewrite handler_rows.
    pose proof (port_stats_row_facts now (reply_dpid ev) (body ev)
                  (default ∅ (prev_port self !! reply_dpid ev))) as Hall.
    induction Hall as [|r rows [_ Hr] _ IH]; [reflexivity|].
    unfold rows_for in *. simpl.
    destruct (N.eqb_spec (r_port r) port) as [Heq|_]; [lia|exact IH].
  - rewrite handler_baseline, port_stats_reserved by assumption.
    apply baseline_default.
Qed.

(** Two replies in a row. A reply at [t0] and a reply at [t1] about the
    same switch, each listing a port below [OFPP_MAX] once: the row of the
    second reply for the port has the rates of the counters of the second
    reply against those of the first, over the time from [t0] to [t1]
    (or [1e-9]), whatever the telemetry held before. *)
Theorem consecutive_replies_rate (self : Telemetry13.t)
    (ev0 ev1 : EventOFPPortStatsReply) (t0 t1 : float)
    (stat0 stat1 : OFPPortStats) :
  reply_dpid ev1 = reply_dpid ev0 ->
  port_no stat1 = port_no stat0 ->
  port_no stat0 < OFPP_MAX ->
  NoDup (port_no <$> body ev0) -> stat0 ∈ body ev0 ->
  NoDup (port_no <$> body ev1) -> stat1 ∈ body ev1 ->
  let dt := max epsilon (t1 - t0)%float in
  ∃ r,
    rows_for (port_no stat0)
      (snd (port_stats_reply_handler
              (fst (port_stats_reply_handler self ev0 t0)) ev1 t1)) = [r]
    ∧ r_rx_bps r
      = round2 (8.0 * float_of_int (rx_bytes stat1 - rx_bytes stat0) / dt)%float
    ∧ r_tx_bps r
      = round2 (8.0 * float_of_int (tx_bytes stat1 - tx_bytes stat0) / dt)%float
    ∧ r_rx_pps r
      = round2 (float_of_int (rx_packets stat1 - rx_packets stat0) / dt)%float
    ∧ r_tx_pps r
      = round2 (float_of_int (tx_packets stat1 - tx_packets stat0) / dt)%float.
Proof.
  intros Hd Hport Hlt Hnd0 Hin0 Hnd1 Hin1 dt.
  set (s1 := fst (port_stats_reply_handler self ev0 t0)).
  assert (default ∅ (prev_port s1 !! reply_dpid ev1) !! port_no stat1
          = Some (sample_of t0 stat0)) as Hb.
  { rewrite baseline_default, Hd, Hport. subst s1.
    rewrite handler_baseline. apply port_stats_stored; assumption. }
  rewrite handler_rows, port_stats_rows by assumption. rewrite <- Hport.
  set (prev1 := default ∅ (prev_port s1 !! reply_dpid ev1)) in *.
  destruct (snd (port_stat t1 (reply_dpid ev1) prev1 stat1)) as [r|] eqn:Hr.
  - exists r. split.
    + apply rows_for_present; try assumption.
      intros st r'. apply port_stat_row_port.
    + unfold port_stat in Hr. rewrite Hb in Hr.
      destruct (N.leb_spec OFPP_MAX (port_no stat1)) as [Hle|_]; [lia|].
      simpl in Hr. injection Hr as <-. simpl. auto.
  - exfalso. unfold port_stat in Hr. rewrite Hb in Hr.
    destruct (N.leb_spec OFPP_MAX (port_no stat1)) as [Hle|_]; [lia|].
    discriminate.
Qed.

Lemma append_csv_other (files : gmap csv_path (list csv_line))
    (path path' : csv_path) (rows : list csv_line) (header : list string) :
  path' ≠ path ->
  _append_csv files path rows header !! path' = files !! path'.
Proof.
  intros Hne. unfold _append_csv.
  destruct (files !! path); apply lookup_insert_ne; congruence.
Qed.

(** A statistics reply touches what belongs to its switch and nothing
    else: the registry, the samples of the other switches and every file
    but the one of its kind and switch are as before. *)
Theorem stats_reply_isolated (st : Telemetry13.t * gmap csv_path (list csv_line))
    (r : stats_reply) :
  datapaths (fst (on_stats_reply st r)) = datapaths (fst st)
  ∧ (∀ dpid, dpid ≠ switch_of r ->
       prev_port (fst (on_stats_reply st r)) !! dpid
       = prev_port (fst st) !! dpid)
  ∧ (∀ path, path ≠ file_of r ->
       snd (on_stats_reply st r) !! path = snd st !! path).
Proof.
  destruct st as [self files]. destruct r as [ev now|ev now]; simpl.
  - unfold port_stats_reply_written, port_stats_reply_handler.
    destruct (port_stats now (reply_dpid ev) _ (body ev)) as [prev rows].
    split; [destruct rows; reflexivity|]. split.
    + intros dpid Hne. destruct rows; simpl; apply lookup_insert_ne; congruence.
    + intros path Hne. destruct rows; simpl; [reflexivity|].
      apply append_csv_other, Hne.
  - split; [reflexivity|]. split; [reflexivity|].
    intros path Hne. unfold flow_stats_reply_handler.
    destruct (flow_rows now (flow_reply_dpid ev) (flow_body ev));
      [reflexivity|]. apply append_csv_other, Hne.
Qed.

(** No row, no write: a port-stats reply that lists reserved ports only,
    or nothing, and a flow-stats reply that lists table-miss entries
    only, or nothing, leave every file as it is, creating none. *)
Theorem no_rows_no_write (st : Telemetry13.t * gmap csv_path (list csv_line)) :
  (∀ ev now, Forall (λ s, OFPP_MAX <= port_no s) (body ev) ->
     snd (on_stats_reply st (PortStatsReply ev now)) = snd st)
  ∧ (∀ ev now, Forall (λ s, default 0 (fs_priority s) = 0) (flow_body ev) ->
       snd (on_stats_reply st (FlowStatsReply ev now)) = snd st).
Proof.
  destruct st as [self files]. split; intros ev now Hall; simpl.
  - unfold port_stats_reply_written.
    pose proof (handler_rows self ev now) as Hrows.
    destruct (port_stats_reply_handler self ev now) as [self' rows].
    simpl in Hrows.
    assert (rows = []) as ->; [|reflexivity].
    rewrite Hrows. clear Hrows.
    generalize (default ∅ (prev_port self !! reply_dpid ev)).
    induction Hall as [|stat stats Hs _ IH]; intros prev; [reflexivity|].
    simpl. unfold port_stat at 1.
    destruct (N.leb_spec OFPP_MAX (port_no stat)) as [_|Hlt]; [|lia].
    specialize (IH prev).
    destruct (port_stats now (reply_dpid ev) prev stats). exact IH.
  - unfold flow_stats_reply_handler.
    assert (flow_rows now (flow_reply_dpid ev) (flow_body ev) = []) as ->;
      [|reflexivity].
    induction Hall as [|stat stats Hs _ IH]; [reflexivity|].
    simpl. unfold flow_stat. rewrite Hs. simpl. exact IH.
Qed.

Lemma flow_rows_dpid (now : float) (dpid : N) (stats : list OFPFlowStats) :
  Forall (λ r, f_dpid r = dpid) (flow_rows now dpid stats).
Proof.
  induction stats as [|stat stats IH]; simpl; [constructor|].
  unfold flow_stat. destruct (default 0 (fs_priority stat) =? 0);
    [exact IH|]. constructor; [reflexivity|exact IH].
Qed.

Lemma append_csv_well_formed (files : gmap csv_path (list csv_line))
    (path : csv_path) (rows : list csv_line) :
  (∀ p c, files !! p = Some c -> well_formed_file p c) ->
  rows ≠ [] -> Forall (row_of_file path) rows ->
  ∀ p c, _append_csv files path rows (header_of path) !! p = Some c ->
         well_formed_file p c.
Proof.
  intros Hwf Hne Hrows p c Hp.
  destruct (decide (p = path)) as [->|Hother].
  - unfold _append_csv in Hp.
    destruct (files !! path) as [content|] eqn:Hf;
      rewrite lookup_insert_eq in Hp; injection Hp as <-.
    + destruct (Hwf path content Hf) as (lines & -> & Hl & Hall).
      exists (lines ++ rows). split; [reflexivity|]. split.
      * destruct lines; [congruence|discriminate].
      * apply Forall_app. auto.
    + exists rows. auto.
  - rewrite append_csv_other in Hp by assumption. eauto.
Qed.

Lemma on_stats_reply_well_formed
    (st : Telemetry13.t * gmap csv_path (list csv_line)) (r : stats_reply) :
  (∀ p c, snd st !! p = Some c -> well_formed_file p c) ->
  ∀ p c, snd (on_stats_reply st r) !! p = Some c -> well_formed_file p c.
Proof.
  destruct st as [self files]. intros Hwf. destruct r as [ev now|ev now]; simpl.
  - unfold port_stats_reply_written.
    pose proof (handler_rows self ev now) as Hrows.
    pose proof (port_stats_row_facts now (reply_dpid ev) (body ev)
                  (default ∅ (prev_port self !! reply_dpid ev))) as Hfacts.
    destruct (port_stats_reply_handler self ev now) as [self' rows].
    simpl in Hrows. rewrite <- Hrows in Hfacts.
    destruct rows as [|r rows]; [exact Hwf|].
    apply (append_csv_well_formed files (inl (reply_dpid ev)));
      [exact Hwf|discriminate|].
    apply Forall_fmap. eapply Forall_impl; [exact Hfacts|].
    intros x [Hx _]. exact Hx.
  - unfold flow_stats_reply_handler.
    pose proof (flow_rows_dpid now (flow_reply_dpid ev) (flow_body ev))
      as Hfacts.
    destruct (flow_rows now (flow_reply_dpid ev) (flow_body ev)) as [|r rows];
      [exact Hwf|].
    apply (append_csv_well_formed files (inr (flow_reply_dpid ev)));
      [exact Hwf|discriminate|].
    apply Forall_fmap. exact Hfacts.
Qed.

(** The files of the telemetry. Starting without files, after any stream
    of statistics replies every file there is holds the header of its
    kind once, as its first line, then one row or more, each of the kind
    of the file and about the switch of the file. *)
Theorem csv_files_well_formed (self : Telemetry13.t) (rs : list stats_reply)
    (path : csv_path) (content : list csv_line) :
  snd (run_stats (self, ∅) rs) !! path = Some content ->
  well_formed_file path content.
Proof.
  assert (∀ st : Telemetry13.t * gmap csv_path (list csv_line),
            (∀ p c, snd st !! p = Some c -> well_formed_file p c) ->
            ∀ p c, snd (run_stats st rs) !! p = Some c -> well_formed_file p c)
    as Hrun.
  { induction rs as [|r rs IH]; intros st Hwf; [exact Hwf|].
    apply (IH (on_stats_reply st r)).
    apply on_stats_reply_well_formed, Hwf. }
  apply Hrun. simpl. intros p c Hp. rewrite lookup_empty in Hp. discriminate.
Qed.
End TelemetryStreams.

(** ** The rules of the applications side by side *)

Section RuleBands.
Import ofproto_v1_3.

(** The priorities keep the applications apart. Whatever the state and
    the event, a flow-mod of the learning switch is the table-miss rule at
    priority 0 or a rule at priority 1, a flow-mod of the load balancer
    has priority 10, and a flow-mod of the firewall has priority 100; the
    rules of the load balancer go after 30 idle seconds, those of the
    learning switch and of the firewall never time out; and a rule of the
    learning switch carries the buffer of the packet-in it answers. *)
Theorem flow_mod_bands :
  (∀ fm, FlowMod fm ∈ LearningSwitch13.switch_features_handler ->
     fm_priority fm = 0 ∧ fm_match fm = []
     ∧ fm_idle_timeout fm = 0 ∧ fm_hard_timeout fm = 0)
  ∧ (∀ self ev fm,
       FlowMod fm ∈ snd (LearningSwitch13._packet_in_handler self ev) ->
       fm_priority fm = 1
       ∧ fm_idle_timeout fm = 0 ∧ fm_hard_timeout fm = 0
       ∧ fm_buffer_id fm = ev_buffer_id ev)
  ∧ (∀ self ev fm,
       FlowMod fm ∈ SimpleLoadBalancer.sent_of
                      (SimpleLoadBalancer.packet_in self ev) ->
       fm_priority fm = 10
       ∧ fm_idle_timeout fm = 30 ∧ fm_hard_timeout fm = 0)
  ∧ (∀ (match_kwargs : Type) parser_OFPMatch send_msg_ok
       (self : SimpleFirewall.t match_kwargs) dpid fm,
       FlowMod fm ∈ fst (SimpleFirewall.switch_features_handler match_kwargs
                           parser_OFPMatch send_msg_ok self dpid) ->
       fm_priority fm = 100
       ∧ fm_idle_timeout fm = 0 ∧ fm_hard_timeout fm = 0).
Proof.
  split; [|split; [|split]].
  - intros fm H. apply list_elem_of_singleton in H.
    injection H as ->. simpl. auto.
  - intros self ev fm H.
    unfold LearningSwitch13._packet_in_handler,
      LearningSwitch13._packet_in_outcome in H.
    destruct (LearningSwitch13.ignored (pkt_eth (ev_pkt ev))).
    { inversion H. }
    match type of H with context [negb ?b] => destruct (negb b) end;
      simpl in H.
    2: { destruct (ev_buffer_id ev =? OFP_NO_BUFFER); simpl in H;
           [apply list_elem_of_singleton in H; discriminate|inversion H]. }
    apply list_elem_of_singleton in H.
    unfold LearningSwitch13.add_flow in H.
    destruct (N.eqb_spec (ev_buffer_id ev) OFP_NO_BUFFER) as [Heq|Hne];
      simpl in H; injection H as ->; simpl; auto.
  - intros self ev fm H. unfold SimpleLoadBalancer.packet_in in H.
    destruct (vip_arp_request ev) eqn:Ha.
    + unfold SimpleLoadBalancer.packet_in_traced, vip_arp_request in *.
      destruct (pkt_arp (ev_pkt ev)) as [a|]; [|discriminate].
      rewrite Ha in H. simpl in H.
      apply list_elem_of_singleton in H. discriminate.
    + rewrite learn_then_intercept in H by assumption.
      unfold SimpleLoadBalancer.intercept,
        SimpleLoadBalancer._choose_server in H. simpl in H.
      destruct (pkt_ipv4 (ev_pkt ev)) as [h|]; [|inversion H].
      destruct (String.eqb (ipv4_dst h) SimpleLoadBalancer.VIP_IP);
        [|inversion H].
      destruct (SimpleLoadBalancer.SERVER_POOL self
                  !! SimpleLoadBalancer.rr_index self) as [srv|];
        [|inversion H].
      simpl in H.
      unfold SimpleLoadBalancer.nat_to_server,
        SimpleLoadBalancer.send_packet_out in H.
      repeat match type of H with
             | context [if ?b then _ else _] => destruct b
             end;
        simpl in H;
        repeat (apply elem_of_cons in H as [H|H]);
        first [discriminate
              | injection H as ->; simpl; auto
              | inversion H].
  - intros K parser ok self dpid fm H.
    unfold SimpleFirewall.switch_features_handler in H.
    destruct (install_rules_spec parser ok dpid
                (SimpleFirewall.drop_rules self) 1) as (_ & _ & Hsent).
    simpl in Hsent. rewrite Hsent in H.
    apply list_elem_of_omap in H as (line & _ & Hmod).
    apply installed_mod_drop_rule in Hmod as (kw & mtch & _ & Heq).
    injection Heq as ->. simpl. auto.
Qed.
End RuleBands.

(** ** The further statements at the sample events *)

Section FurtherWitnesses.
Import ofproto_v1_3.

Lemma learned_never_forgotten_witness :
  is_Some (port_of host_known 1 "00:00:00:00:00:aa")
  ∧ is_Some (port_of (LearningSwitch13.run host_known [reply_in; lldp_in])
               1 "00:00:00:00:00:aa").
Proof.
  assert (is_Some (port_of host_known 1 "00:00:00:00:00:aa")) as H.
  { exists 1. vm_compute. reflexivity. }
  split; [exact H|].
  exact (learned_never_forgotten host_known [reply_in; lldp_in] 1
           "00:00:00:00:00:aa" H).
Defined.

Lemma real_ports_reachable_witness :
  Forall (λ ev, ev_in_port ev ≠ OFPP_FLOOD) [host_in; reply_in]
  ∧ real_ports (LearningSwitch13.run LearningSwitch13.init [host_in; reply_in]).
Proof.
  assert (Forall (λ ev, ev_in_port ev ≠ OFPP_FLOOD) [host_in; reply_in]) as H.
  { repeat constructor; discriminate. }
  split; [exact H|].
  exact (real_ports_reachable [host_in; reply_in] H).
Defined.

Lemma learn_then_unicast_witness :
  LearningSwitch13.ignored (pkt_eth (ev_pkt host_in)) = false
  ∧ LearningSwitch13.ignored (pkt_eth (ev_pkt reply_in)) = false
  ∧ ev_dpid reply_in = ev_dpid host_in
  ∧ eth_dst (pkt_eth (ev_pkt reply_in)) = eth_src (pkt_eth (ev_pkt host_in))
  ∧ eth_src (pkt_eth (ev_pkt reply_in)) ≠ eth_src (pkt_eth (ev_pkt host_in))
  ∧ ev_in_port host_in ≠ OFPP_FLOOD
  ∧ snd (LearningSwitch13._packet_in_handler host_known reply_in)
    = [LearningSwitch13.add_flow 1
         [("eth_dst"%string, OXMStr "00:00:00:00:00:aa")]
         [Output 1] (Some OFP_NO_BUFFER)].
Proof.
  assert (eth_src (pkt_eth (ev_pkt reply_in))
          ≠ eth_src (pkt_eth (ev_pkt host_in))) as Hs by discriminate.
  assert (ev_in_port host_in ≠ OFPP_FLOOD) as Hp by discriminate.
  repeat (split; [first [reflexivity | exact Hs | exact Hp]|]).
  exact (learn_then_unicast LearningSwitch13.init host_in reply_in
           eq_refl eq_refl eq_refl eq_refl Hs Hp).
Defined.

Lemma address_cache_never_shrinks_witness :
  is_Some (SimpleLoadBalancer.ip2mac backend_seen !! "10.0ping1.1"%string)
  ∧ is_Some (SimpleLoadBalancer.ip2mac
               (SimpleLoadBalancer.run backend_seen sample_stream)
             !! "10.0ping1.1"%string).
Proof.
  assert (is_Some (SimpleLoadBalancer.ip2mac backend_seen
                   !! "10.0ping1.1"%string)) as H.
  { exists "00:00:00:00:00:01"%string. vm_compute. reflexivity. }
  split; [exact H|].
  exact (address_cache_never_shrinks backend_seen sample_stream
           "10.0ping1.1" H).
Defined.

Lemma arp_sender_cached_witness :
  pkt_arp (ev_pkt backend_arp_in) = Some backend_arp
  ∧ SimpleLoadBalancer.ip2mac
      (SimpleLoadBalancer.state_of
         (SimpleLoadBalancer.packet_in SimpleLoadBalancer.init backend_arp_in))
    !! "10.0ping1.1"%string = Some "00:00:00:00:00:01"%string.
Proof.
  split; [reflexivity|].
  exact (arp_sender_cached SimpleLoadBalancer.init backend_arp_in backend_arp
           eq_refl).
Defined.

Lemma proxy_arp_witness :
  pkt_arp (ev_pkt vip_request_in) = Some vip_request
  ∧ opcode vip_request = ARP_REQUEST
  ∧ dst_ip vip_request = SimpleLoadBalancer.VIP_IP
  ∧ snd (SimpleLoadBalancer.packet_in_traced SimpleLoadBalancer.init
           vip_request_in) = None
  ∧ length (SimpleLoadBalancer.sent_of
              (SimpleLoadBalancer.packet_in SimpleLoadBalancer.init
                 vip_request_in)) = 1%nat.
Proof.
  repeat (split; [reflexivity|]).
  unfold SimpleLoadBalancer.packet_in.
  rewrite (proxy_arp SimpleLoadBalancer.init vip_request_in vip_request
             eq_refl eq_refl eq_refl).
  split; reflexivity.
Defined.

Lemma other_traffic_passed_over_witness :
  to_vip host_in = false
  ∧ vip_arp_request host_in = false
  ∧ SimpleLoadBalancer.sent_of
      (SimpleLoadBalancer.packet_in backend_seen host_in) = [].
Proof.
  repeat (split; [reflexivity|]).
  unfold SimpleLoadBalancer.packet_in.
  rewrite (other_traffic_passed_over backend_seen host_in eq_refl eq_refl).
  reflexivity.
Defined.

Lemma pointer_outside_pool_raises_witness :
  (length (SimpleLoadBalancer.SERVER_POOL no_backend)
   <= SimpleLoadBalancer.rr_index no_backend)%nat
  ∧ vip_decision client_in = true
  ∧ SimpleLoadBalancer.sent_of
      (SimpleLoadBalancer.packet_in no_backend client_in) = []
  ∧ SimpleLoadBalancer.rr_index
      (SimpleLoadBalancer.state_of
         (SimpleLoadBalancer.packet_in no_backend client_in)) = 0%nat.
Proof.
  assert (length (SimpleLoadBalancer.SERVER_POOL no_backend)
          <= SimpleLoadBalancer.rr_index no_backend)%nat as H
    by (simpl; lia).
  split; [exact H|]. split; [reflexivity|].
  rewrite (pointer_outside_pool_raises no_backend client_in H eq_refl).
  split; reflexivity.
Defined.

Lemma pool_mac_kept_witness :
  SimpleLoadBalancer.SERVER_POOL pool_filled !! 0%nat = Some backend_resolved
  ∧ SimpleLoadBalancer.truthy_opt (SimpleLoadBalancer.mac backend_resolved)
    = true
  ∧ SimpleLoadBalancer.SERVER_POOL
      (SimpleLoadBalancer.run pool_filled sample_stream) !! 0%nat
    = Some backend_resolved.
Proof.
  repeat (split; [reflexivity|]).
  exact (pool_mac_kept pool_filled sample_stream 0 backend_resolved
           eq_refl eq_refl).
Defined.

Lemma backend_learned_then_nat_witness :
  SimpleLoadBalancer.SERVER_POOL after_first_flood
    !! SimpleLoadBalancer.rr_index after_first_flood = Some second_backend
  ∧ ipv4_text_ok (SimpleLoadBalancer.ip second_backend) = true
  ∧ src_ip second_backend_arp = SimpleLoadBalancer.ip second_backend
  ∧ ev_buffer_id client_in = OFP_NO_BUFFER
  ∧ SimpleLoadBalancer.sent_of
      (SimpleLoadBalancer.packet_in after_first_flood second_backend_arp_in)
    = []
  ∧ length (List.filter is_FlowMod
              (SimpleLoadBalancer.sent_of
                 (SimpleLoadBalancer.packet_in second_backend_seen client_in)))
    = 2%nat.
Proof.
  assert (SimpleLoadBalancer.SERVER_POOL after_first_flood
            !! SimpleLoadBalancer.rr_index after_first_flood
          = Some second_backend) as Hs by (vm_compute; reflexivity).
  assert (ipv4_src client_header ≠ SimpleLoadBalancer.ip second_backend)
    as Hne by discriminate.
  split; [exact Hs|]. split; [reflexivity|]. split; [reflexivity|].
  split; [reflexivity|].
  destruct (backend_learned_then_nat after_first_flood second_backend_arp_in
              client_in second_backend_arp client_header second_backend
              Hs eq_refl eq_refl eq_refl eq_refl eq_refl eq_refl eq_refl
              eq_refl eq_refl eq_refl Hne eq_refl) as [H1 (self' & H2)].
  split; [rewrite H1; reflexivity|].
  unfold second_backend_seen. rewrite H2. reflexivity.
Defined.

Lemma no_list_no_drop_rule_witness :
  ¬ (∃ (p : string) (data : list OFPMatch),
        (None : option string) = Some p ∧ p ≠ ""%string
        ∧ (λ _ : string, true) p = true
        ∧ (λ _ : string, @None (SimpleFirewall.json_document OFPMatch)) p
          = Some (SimpleFirewall.JsonList data))
  ∧ SimpleFirewall.switch_features_handler OFPMatch Some (λ _, true)
      (SimpleFirewall.init None (λ _, true) (λ _, None)) 1 = ([], []).
Proof.
  assert (¬ (∃ (p : string) (data : list OFPMatch),
        (None : option string) = Some p ∧ p ≠ ""%string
        ∧ (λ _ : string, true) p = true
        ∧ (λ _ : string, @None (SimpleFirewall.json_document OFPMatch)) p
          = Some (SimpleFirewall.JsonList data))) as H.
  { intros (p & data & Hp & _). discriminate. }
  split; [exact H|].
  exact (proj2 (no_list_no_drop_rule Some (λ _, true) None (λ _, true)
                  (λ _, None) 1 H)).
Defined.

Lemma reserved_ports_skipped_witness :
  OFPP_MAX <= 0xfffffffe
  ∧ baseline
      (fst (Telemetry13.port_stats_reply_handler sampled_once second_reply 2))
      1 0xfffffffe = None.
Proof.
  assert (OFPP_MAX <= 0xfffffffe) as H by (vm_compute; discriminate).
  split; [exact H|].
  destruct (reserved_ports_skipped sampled_once second_reply 2 0xfffffffe H)
    as [_ Hb].
  simpl in Hb. rewrite Hb. vm_compute. reflexivity.
Defined.

Lemma consecutive_replies_rate_witness :
  ∃ r, rows_for 1
         (snd (Telemetry13.port_stats_reply_handler
                 (fst (Telemetry13.port_stats_reply_handler Telemetry13.init
                         first_reply 0))
                 second_reply 2)) = [r]
    ∧ Telemetry13.r_rx_bps r = 8000%float.
Proof.
  destruct (consecutive_replies_rate Telemetry13.init first_reply second_reply
              0 2
              {| Telemetry13.port_no := 1;
                 Telemetry13.rx_packets := 10; Telemetry13.tx_packets := 0;
                 Telemetry13.rx_bytes := 1000; Telemetry13.tx_bytes := 0 |}
              second_port_stats eq_refl eq_refl eq_refl
              (NoDup_singleton _) (list_elem_of_here _ _)
              (NoDup_singleton _) (list_elem_of_here _ _))
    as (r & Hr & Hrx & _).
  exists r. split; [exact Hr|exact Hrx].
Defined.

Lemma csv_files_well_formed_witness :
  ∃ content,
    snd (Telemetry13.run_stats (Telemetry13.init, ∅) two_replies) !! inl 1
    = Some content
    ∧ length content = 3%nat
    ∧ well_formed_file (inl 1) content.
Proof.
  eexists. split; [vm_compute; reflexivity|]. split; [reflexivity|].
  apply (csv_files_well_formed Telemetry13.init two_replies).
  vm_compute. reflexivity.
Defined.
End FurtherWitnesses.
